(** * opendlv-logic-control-differentialsteering: a shallow embedding

    The program is a single translation unit,
    [src/opendlv-logic-control-differentialsteering.cpp].  Its [main]
    parses the command line, declares the shared variables [vxRequest],
    [yawRateRequest] and [state], and builds three closures over them:
    [onGroundMotionRequest], [onSwitchStateRequest] and [atFrequency].

    The embedding follows the source closely:
    - C++ [float] is IEEE 754 binary32, taken from the Standard Library's
      bit-level specification [SpecFloat] at precision 24 and [emax] 128;
    - the three closures are computations in a small state monad over the
      captured variables, the outbox of the OD4 session, [std::cout] and
      the number of clock readings;
    - [main] is a function of the parsed command line into an outcome. *)

From Stdlib Require Import ZArith Bool List Lia.
From Stdlib Require Import Floats.SpecFloat.
From Stdlib Require Import Ascii String.
From stdpp Require Import base option gmap strings.

Local Open Scope Z_scope.

(** ** binary32 arithmetic *)

Module F32.

Definition prec : Z := 24.
Definition emax : Z := 128.

(** A C++ [float]. Every value the program handles satisfies [valid]. *)
Definition float : Type := spec_float.

Definition valid (x : float) : bool := valid_binary prec emax x.

Definition add : float -> float -> float := SFadd prec emax.
Definition sub : float -> float -> float := SFsub prec emax.
Definition mul : float -> float -> float := SFmul prec emax.
Definition div : float -> float -> float := SFdiv prec emax.
Definition opp : float -> float := SFopp.

(** [a < b], [a <= b] and [a == b] of C++; all false on a NaN operand. *)
Definition ltb : float -> float -> bool := SFltb.
Definition leb : float -> float -> bool := SFleb.
Definition eqb : float -> float -> bool := SFeqb.
(** [a > b] of C++. *)
Definition gtb (a b : float) : bool := ltb b a.

Definition is_nan (x : float) : bool :=
  match x with S754_nan => true | _ => false end.

Definition is_finite (x : float) : bool :=
  match x with S754_zero _ | S754_finite _ _ _ => true | _ => false end.

(** The float nearest to the integer [n] (ties to even). *)
Definition of_Z (n : Z) : float := binary_normalize prec emax n 0 false.

(** The float nearest to [n * 2^e]. *)
Definition of_dyadic (n e : Z) : float := binary_normalize prec emax n e false.

Definition zero : float := S754_zero false.
Definition one : float := Eval vm_compute in of_Z 1.
Definition infinity : float := S754_infinity false.
Definition nan : float := S754_nan.

(** Structural equality of two floats (it tells the two zeros apart). *)
Definition same (x y : float) : bool :=
  match x, y with
  | S754_zero a, S754_zero b => Bool.eqb a b
  | S754_infinity a, S754_infinity b => Bool.eqb a b
  | S754_nan, S754_nan => true
  | S754_finite a m e, S754_finite b n f =>
      Bool.eqb a b && Pos.eqb m n && Z.eqb e f
  | _, _ => false
  end.

(** The literal [0.99f]: mantissa 16609444 at exponent -24,
    i.e. 0.9900000095367431640625. *)
Definition c0_99 : float := S754_finite false 16609444 (-24).

End F32.

Abbreviation float := F32.float.

(** ** The saturation of lines 128-132 and 138-142

    [p = x / speedMax; p = p > 1.0f ? 0.99f : p; p = p < -1.0f ? -0.99f : p]. *)

Definition saturate (p : float) : float :=
  let p1 := if F32.gtb p F32.one then F32.c0_99 else p in
  let p2 := if F32.ltb p1 (F32.opp F32.one) then F32.opp F32.c0_99 else p1 in
  p2.

Definition pedalPosition (v speedMax : float) : float :=
  saturate (F32.div v speedMax).

(** ** The kinematics of lines 121-122 *)

Definition wheelSpeeds (vxRequest yawRateRequest trackWidth : float)
  : float * float :=
  (F32.sub vxRequest (F32.mul yawRateRequest trackWidth),
   F32.add vxRequest (F32.mul yawRateRequest trackWidth)).

(** ** Messages

    The message classes come from [opendlv-standard-message-set.hpp] and
    the envelope from [cluon-complete.hpp]; only the accessors the program
    calls are represented. *)

(** [opendlv::proxy::GroundMotionRequest], accessors [vx()] and [yawRate()]. *)
Record GroundMotionRequest := {
  vx : float;
  yawRate : float
}.

(** [opendlv::proxy::SwitchStateRequest], accessor [state()] (an [int32_t]). *)
Record SwitchStateRequest := {
  msg_state : Z
}.

(** [cluon::data::Envelope], described by what the program observes of it:
    its [senderStamp()] (a [uint32_t]) and the result of
    [cluon::extractMessage<T>] for the two message types it is decoded as. *)
Record Envelope := {
  senderStamp : Z;
  asGroundMotionRequest : GroundMotionRequest;
  asSwitchStateRequest : SwitchStateRequest
}.

(** [cluon::data::TimeStamp]. *)
Record TimeStamp := {
  seconds : Z;
  microseconds : Z
}.

(** One call [od4.send(request, ts, stamp)] with a
    [opendlv::proxy::PedalPositionRequest] whose [position] was set. *)
Record Sent := {
  position : float;
  sampleTime : TimeStamp;
  sentStamp : Z
}.

(** The lines written to [std::cout] when [verbose] is set. *)
Inductive CoutLine :=
| GotRequest (vx yawRate : float)
| GotSwitchState (state : Z)
| SuppressingOutput
| SendingPedalRequests (left right vl vr max : float).

(** ** Configuration and state

    The [const] locals of [main] that the closures capture. *)
Record Config := {
  senderStampInput : Z;
  senderStampLeft : Z;
  senderStampRight : Z;
  verbose : bool;
  trackWidth : float;
  speedMax : float
}.

(** The mutable variables the closures capture by reference, together with
    the observable effects: the messages sent on the OD4 session, the lines
    on [std::cout], and how often [cluon::time::now()] was called. *)
Record World := {
  vxRequest : float;
  yawRateRequest : float;
  state : Z;
  sent : list Sent;
  cout : list CoutLine;
  nowCalls : nat
}.

(** Lines 60-61 initialise the request to zero; line 64 declares [state]
    without an initialiser, so its first value is whatever [s] is. *)
Definition initialWorld (s : Z) : World :=
  {| vxRequest := F32.zero; yawRateRequest := F32.zero; state := s;
     sent := []; cout := []; nowCalls := 0 |}.

(** ** A state monad over [World] *)

Definition M (A : Type) : Type := World -> A * World.

Definition ret {A} (a : A) : M A := fun w => (a, w).

Definition bind {A B} (c : M A) (k : A -> M B) : M B :=
  fun w => let '(a, w') := c w in k a w'.

Declare Scope m_scope.
Delimit Scope m_scope with M.
Notation "x <- c ;; k" := (bind c (fun x => k))
  (at level 20, c at level 10, k at level 200, only parsing) : m_scope.
Notation "'run' c ;; k" := (bind c (fun _ => k))
  (at level 20, c at level 10, k at level 200, only parsing) : m_scope.

Definition when (b : bool) (c : M unit) : M unit :=
  if b then c else ret tt.

Definition getState : M Z := fun w => (state w, w).

Definition getRequest : M (float * float) :=
  fun w => ((vxRequest w, yawRateRequest w), w).

(** The critical section of lines 74-78: both fields under one lock. *)
Definition setRequest (v y : float) : M unit :=
  fun w => (tt, {| vxRequest := v; yawRateRequest := y; state := state w;
                   sent := sent w; cout := cout w; nowCalls := nowCalls w |}).

Definition setState (s : Z) : M unit :=
  fun w => (tt, {| vxRequest := vxRequest w; yawRateRequest := yawRateRequest w;
                   state := s;
                   sent := sent w; cout := cout w; nowCalls := nowCalls w |}).

Definition print (l : CoutLine) : M unit :=
  fun w => (tt, {| vxRequest := vxRequest w; yawRateRequest := yawRateRequest w;
                   state := state w;
                   sent := sent w; cout := cout w ++ [l];
                   nowCalls := nowCalls w |}).

Definition send (p : float) (ts : TimeStamp) (stamp : Z) : M unit :=
  fun w => (tt, {| vxRequest := vxRequest w; yawRateRequest := yawRateRequest w;
                   state := state w;
                   sent := sent w ++ [ {| position := p; sampleTime := ts;
                                          sentStamp := stamp |} ];
                   cout := cout w; nowCalls := nowCalls w |}).

Section Closures.

(** The wall clock: the value the [n]-th call of [cluon::time::now()]
    returns. *)
Variable clock : nat -> TimeStamp.
Variable cfg : Config.

Definition now : M TimeStamp :=
  fun w => (clock (nowCalls w),
            {| vxRequest := vxRequest w; yawRateRequest := yawRateRequest w;
               state := state w; sent := sent w; cout := cout w;
               nowCalls := S (nowCalls w) |}).

Local Open Scope m_scope.

(** Lines 66-85. *)
Definition onGroundMotionRequest (envelope : Envelope) : M unit :=
  if senderStamp envelope =? senderStampInput cfg then
    let msg := asGroundMotionRequest envelope in
    run setRequest (vx msg) (yawRate msg) ;;
    when (verbose cfg) (print (GotRequest (vx msg) (yawRate msg)))
  else ret tt.

(** Lines 87-101. *)
Definition onSwitchStateRequest (envelope : Envelope) : M unit :=
  if senderStamp envelope =? 99 then
    let msg := asSwitchStateRequest envelope in
    run setState (msg_state msg) ;;
    s <- getState ;;
    when (verbose cfg) (print (GotSwitchState s))
  else ret tt.

(** Lines 103-155. *)
Definition atFrequency : M bool :=
  s <- getState ;;
  if s =? 1 then
    run when (verbose cfg) (print SuppressingOutput) ;;
    ret true
  else
    r <- getRequest ;;
    let '(vl, vr) := wheelSpeeds (fst r) (snd r) (trackWidth cfg) in
    ts <- now ;;
    let pedalPositionLeft := pedalPosition vl (speedMax cfg) in
    run send pedalPositionLeft ts (senderStampLeft cfg) ;;
    let pedalPositionRight := pedalPosition vr (speedMax cfg) in
    run send pedalPositionRight ts (senderStampRight cfg) ;;
    run when (verbose cfg)
          (print (SendingPedalRequests pedalPositionLeft pedalPositionRight
                    vl vr (speedMax cfg))) ;;
    ret true.

End Closures.

(** ** [main]

    [cluon::getCommandlineArguments] turns [argv] into a
    [std::map<std::string, std::string>]; [main] is modelled from that map
    on.  [std::stoi] and [std::stof] either return a value or throw; nothing
    in [main] catches, so a throw ends the process in [std::terminate]. *)

Inductive Exception := invalid_argument | out_of_range.

Inductive Thrown (A : Type) :=
| Value (a : A)
| Throw (e : Exception).
Arguments Value {A} a.
Arguments Throw {A} e.

Definition tbind {A B} (c : Thrown A) (k : A -> Thrown B) : Thrown B :=
  match c with
  | Value a => k a
  | Throw e => Throw e
  end.

Declare Scope thrown_scope.
Delimit Scope thrown_scope with T.
Notation "x <- c ;; k" := (tbind c (fun x => k))
  (at level 20, c at level 10, k at level 200, only parsing) : thrown_scope.

(** [static_cast<uint32_t>] and [static_cast<uint16_t>] of an [int]. *)
Definition to_uint32 (n : Z) : Z := n mod 2 ^ 32.
Definition to_uint16 (n : Z) : Z := n mod 2 ^ 16.

(** The two closures that take an envelope. *)
Inductive Handler := OnGroundMotionRequest | OnSwitchStateRequest.

(** What [main] hands to the OD4 session before it blocks in
    [od4.timeTrigger]: the connection identifier, the frequency, the
    configuration the closures captured, and the closures passed to
    [od4.dataTrigger]. *)
Record Session := {
  cid : Z;
  freq : Z;
  config : Config;
  dataTriggers : list Handler
}.

(** How the process ends.  [Returned rc usage ran]: [main] returned [rc];
    [usage] tells whether the usage text went to [std::cerr]; [ran] is the
    session that was operated ([od4.timeTrigger] was entered and has come
    back), if any.  [Terminated e]: an exception left [main]. *)
Inductive Outcome :=
| Returned (retCode : Z) (usage : bool) (ran : option Session)
| Terminated (e : Exception).

Section Main.

Variable stoi : string -> Thrown Z.
Variable stof : string -> Thrown float.

(** [commandlineArguments.count(key)]. *)
Definition count (commandlineArguments : gmap string string) (key : string)
  : Z :=
  match commandlineArguments !! key with
  | Some _ => 1
  | None => 0
  end.

(** [commandlineArguments[key]]: the empty string for an absent key. *)
Definition at_key (commandlineArguments : gmap string string) (key : string)
  : string :=
  default EmptyString (commandlineArguments !! key).

Definition stampArgument (commandlineArguments : gmap string string)
    (key : string) (dflt : Z) : Thrown Z :=
  if negb (count commandlineArguments key =? 0)
  then tbind (stoi (at_key commandlineArguments key))
             (fun n => Value (to_uint32 n))
  else Value dflt.

Local Open Scope thrown_scope.

(** Lines 42-159, in the order of evaluation. *)
Definition setup (commandlineArguments : gmap string string)
  : Thrown Session :=
  senderStampInput <- stampArgument commandlineArguments "id-input" 0 ;;
  senderStampLeft <- stampArgument commandlineArguments "id-left" 0 ;;
  senderStampRight <- stampArgument commandlineArguments "id-right" 1 ;;
  let verbose := negb (count commandlineArguments "verbose" =? 0) in
  trackWidth <- stof (at_key commandlineArguments "track-width") ;;
  speedMax <- stof (at_key commandlineArguments "speed-max") ;;
  c <- stoi (at_key commandlineArguments "cid") ;;
  f <- stoi (at_key commandlineArguments "freq") ;;
  Value {| cid := to_uint16 c; freq := f;
           config := {| senderStampInput := senderStampInput;
                        senderStampLeft := senderStampLeft;
                        senderStampRight := senderStampRight;
                        verbose := verbose;
                        trackWidth := trackWidth;
                        speedMax := speedMax |};
           dataTriggers := [OnGroundMotionRequest] |}.

(** Lines 24-164. *)
Definition main (commandlineArguments : gmap string string) : Outcome :=
  let retCode := 1 in
  if (0 =? count commandlineArguments "cid")
     || (0 =? count commandlineArguments "freq")
     || (0 =? count commandlineArguments "speed-max")
     || (0 =? count commandlineArguments "track-width")
  then Returned retCode true None
  else
    match setup commandlineArguments with
    | Value session => Returned 0 false (Some session)
    | Throw e => Terminated e
    end.

End Main.

(** One of the four keys of lines 28-31 is absent. *)
Definition missingRequired (commandlineArguments : gmap string string)
  : Prop :=
  commandlineArguments !! "cid" = None \/
  commandlineArguments !! "freq" = None \/
  commandlineArguments !! "speed-max" = None \/
  commandlineArguments !! "track-width" = None.

(** ** [std::stoi] and [std::stof] on plain literals

    The two library functions are parameters of [main].  To run [main] on a
    concrete command line, the functions below give their results on the
    strings that consist of an optional sign followed by decimal digits
    and, for [stof], an optional fraction, or by [inf] or [nan], as long as
    the value is zero, an infinity, a NaN, or in the normal range of the
    result type.  No digit at all throws [invalid_argument]; a value beyond
    the range of the result type throws [out_of_range].  The other forms
    the library reads (blanks in front, exponents, hexadecimal) are not
    covered. *)

Module Literal.

Definition digit (c : Ascii.ascii) : option Z :=
  let n := Z.of_N (Ascii.N_of_ascii c) in
  if (48 <=? n) && (n <=? 57) then Some (n - 48) else None.

(** Reads the leading digits of [s]: their value on top of [acc], how
    many there were, and the rest of the string. *)
Fixpoint digits (s : string) (acc : Z) (n : nat) : Z * nat * string :=
  match s with
  | String c s' =>
      match digit c with
      | Some d => digits s' (10 * acc + d) (S n)
      | None => (acc, n, s)
      end
  | EmptyString => (acc, n, s)
  end.

Definition sign (s : string) : bool * string :=
  match s with
  | String "-"%char s' => (true, s')
  | String "+"%char s' => (false, s')
  | _ => (false, s)
  end.

Definition stoi (s : string) : Thrown Z :=
  let '(neg, s1) := sign s in
  let '(v, n, _) := digits s1 0 0%nat in
  match n with
  | O => Throw invalid_argument
  | _ =>
      let r := if neg then - v else v in
      if (- 2 ^ 31 <=? r) && (r <=? 2 ^ 31 - 1) then Value r
      else Throw out_of_range
  end.

(** The float nearest to [n / d], for [n >= 0] and [d > 0], with the
    sign [neg]: the quotient is taken with enough bits for the rounding
    to see the remainder. *)
Definition of_ratio (neg : bool) (n d : Z) : float :=
  match n with
  | Z0 => S754_zero neg
  | _ =>
      let '(q, e, l) := SFdiv_core_binary F32.prec F32.emax n 0 d 0 in
      binary_round_aux F32.prec F32.emax neg q e l
  end.

Definition lower (c : Ascii.ascii) : Ascii.ascii :=
  let n := Ascii.N_of_ascii c in
  if ((65 <=? n) && (n <=? 90))%N then Ascii.ascii_of_N (n + 32) else c.

(** The first three characters of [s], in lower case. *)
Definition word3 (s : string) : string :=
  match s with
  | String a (String b (String c _)) =>
      String (lower a) (String (lower b) (String (lower c) EmptyString))
  | _ => EmptyString
  end.

Definition stof (s : string) : Thrown float :=
  let '(neg, s1) := sign s in
  if String.eqb (word3 s1) "inf" then Value (S754_infinity neg)
  else if String.eqb (word3 s1) "nan" then Value S754_nan
  else
    let '(i, ni, s2) := digits s1 0 0%nat in
    let '(v, nf) :=
      match s2 with
      | String "."%char s3 => let '(v, nf, _) := digits s3 i 0%nat in (v, nf)
      | _ => (i, 0%nat)
      end in
    match (ni + nf)%nat with
    | O => Throw invalid_argument
    | _ =>
        let r := of_ratio neg v (10 ^ Z.of_nat nf) in
        if F32.is_finite r then Value r else Throw out_of_range
    end.

End Literal.

(** ** Observations and sample data *)

(** The messages a computation sends when started in [w]: what it appends
    to the outbox. *)
Definition emittedBy {A} (c : M A) (w : World) : list Sent :=
  skipn (length (sent w)) (sent (snd (c w))).

(** The world a computation leaves. *)
Definition after {A} (c : M A) (w : World) : World := snd (c w).

(** The fields of the command store. *)
Definition request (w : World) : float * float :=
  (vxRequest w, yawRateRequest w).

Module Sample.

Definition clock (n : nat) : TimeStamp :=
  {| seconds := 1000 + Z.of_nat n; microseconds := 0 |}.

(** [--speed-max=2 --track-width=0.5], default sender stamps. *)
Definition cfg (verbose : bool) : Config :=
  {| senderStampInput := 0; senderStampLeft := 0; senderStampRight := 1;
     verbose := verbose;
     trackWidth := F32.of_dyadic 1 (-1);
     speedMax := F32.of_Z 2 |}.

(** An envelope from [stamp] that decodes to the motion request
    [(v, y)] and to the switch state [s]. *)
Definition envelope (stamp : Z) (v y : float) (s : Z) : Envelope :=
  {| senderStamp := stamp;
     asGroundMotionRequest := {| vx := v; yawRate := y |};
     asSwitchStateRequest := {| msg_state := s |} |}.

(** A world whose command store holds [(v, y)] and whose gate holds [s]. *)
Definition world (v y : float) (s : Z) : World :=
  {| vxRequest := v; yawRateRequest := y; state := s;
     sent := []; cout := []; nowCalls := 0 |}.

(** [--cid=111 --freq=10 --speed-max=0 --track-width=0.5]. *)
Definition zeroSpeedMax : gmap string string :=
  <["cid" := "111"]> (<["freq" := "10"]> (<["speed-max" := "0"]>
    (<["track-width" := "0.5"]> ∅))).

(** [--cid=111 --freq=10 --speed-max=1 --track-width=inf]. *)
Definition infiniteTrackWidth : gmap string string :=
  <["cid" := "111"]> (<["freq" := "10"]> (<["speed-max" := "1"]>
    (<["track-width" := "inf"]> ∅))).

End Sample.

(** A grid of exactly representable inputs: the multiples of 1/4 from -4
    to 4, on which the kinematics can be compared with integer
    arithmetic. *)
Module Grid.

Definition quarter (n : Z) : float := F32.of_dyadic n (-2).

Definition points : list Z := map (fun n => Z.of_nat n - 16) (seq 0 33).

(** At [v = a/4], [w = b/4], [h = c/4] the exact wheel speeds are
    [(4a - bc)/16] and [(4a + bc)/16]. *)
Definition exact_at (a b c : Z) : bool :=
  let '(l, r) := wheelSpeeds (quarter a) (quarter b) (quarter c) in
  F32.same l (F32.of_dyadic (4 * a - b * c) (-4))
  && F32.same r (F32.of_dyadic (4 * a + b * c) (-4)).

End Grid.

(** ** The session in operation

    Lines 157-159 hand the closures to the OD4 session:
    [od4.dataTrigger(ID, f)] has the session call [f] on every envelope of
    message type [ID] it receives, and [od4.timeTrigger(freq, f)] has it
    call [f] at the given frequency for as long as [f] returns [true].
    The closures take their locks for the whole of each access to a store,
    so a run of the session is a sequence of these calls. *)

(** What happens to the session: an envelope of type
    [GroundMotionRequest] or of type [SwitchStateRequest] arrives, or the
    time trigger fires. *)
Inductive Event :=
| MotionArrives (envelope : Envelope)
| SwitchStateArrives (envelope : Envelope)
| TimeTick.

Definition Handler_eqb (a b : Handler) : bool :=
  match a, b with
  | OnGroundMotionRequest, OnGroundMotionRequest => true
  | OnSwitchStateRequest, OnSwitchStateRequest => true
  | _, _ => false
  end.

(** Whether closure [h] was passed to [od4.dataTrigger]. *)
Definition registered (session : Session) (h : Handler) : bool :=
  existsb (Handler_eqb h) (dataTriggers session).

Section Operation.

Variable clock : nat -> TimeStamp.
Variable session : Session.

(** One call of the session into the program; the result tells whether
    the time trigger goes on. *)
Definition step (ev : Event) : M bool :=
  match ev with
  | MotionArrives envelope =>
      if registered session OnGroundMotionRequest
      then bind (onGroundMotionRequest (config session) envelope)
                (fun _ => ret true)
      else ret true
  | SwitchStateArrives envelope =>
      if registered session OnSwitchStateRequest
      then bind (onSwitchStateRequest (config session) envelope)
                (fun _ => ret true)
      else ret true
  | TimeTick => atFrequency clock (config session)
  end.

(** The world after the events, in order; [od4.timeTrigger] comes back,
    and the operation ends, at the first tick that returns [false]. *)
Fixpoint operate (events : list Event) (w : World) : World :=
  match events with
  | [] => w
  | ev :: rest =>
      let '(continue, w') := step ev w in
      if continue then operate rest w' else w'
  end.

End Operation.

(** The number of time ticks among the events. *)
Fixpoint ticks (events : list Event) : nat :=
  match events with
  | [] => O
  | TimeTick :: rest => S (ticks rest)
  | _ :: rest => ticks rest
  end.

(** The motion request of the last envelope among the events that the
    motion handler accepts, if any. *)
Fixpoint lastRequest (cfg : Config) (events : list Event)
    (acc : option GroundMotionRequest) : option GroundMotionRequest :=
  match events with
  | [] => acc
  | MotionArrives envelope :: rest =>
      if senderStamp envelope =? senderStampInput cfg
      then lastRequest cfg rest (Some (asGroundMotionRequest envelope))
      else lastRequest cfg rest acc
  | _ :: rest => lastRequest cfg rest acc
  end.

(** Two configurations that differ in [verbose] at most. *)
Definition sameButVerbose (a b : Config) : Prop :=
  senderStampInput a = senderStampInput b /\
  senderStampLeft a = senderStampLeft b /\
  senderStampRight a = senderStampRight b /\
  trackWidth a = trackWidth b /\
  speedMax a = speedMax b.

(** A world without what was written to [std::cout]. *)
Definition silent (w : World) : World :=
  {| vxRequest := vxRequest w; yawRateRequest := yawRateRequest w;
     state := state w; sent := sent w; cout := []; nowCalls := nowCalls w |}.

(** More sample command lines. *)
Module Args.

(** [--cid=111 --freq=10 --speed-max=2 --track-width=0.5]. *)
Definition plain : gmap string string :=
  <["cid" := "111"]> (<["freq" := "10"]> (<["speed-max" := "2"]>
    (<["track-width" := "0.5"]> ∅))).

(** The session [main] sets up from [plain]. *)
Definition plainSession : Session :=
  {| cid := 111; freq := 10;
     config := Sample.cfg false;
     dataTriggers := [OnGroundMotionRequest] |}.

(** [--cid=111 --freq=10 --speed-max=fast --track-width=0.5]. *)
Definition unconvertible : gmap string string :=
  <["cid" := "111"]> (<["freq" := "10"]> (<["speed-max" := "fast"]>
    (<["track-width" := "0.5"]> ∅))).

(** [--cid=65647 --freq=10 --speed-max=2 --track-width=0.5 --id-input=-1
    --verbose]. *)
Definition wrapped : gmap string string :=
  <["cid" := "65647"]> (<["freq" := "10"]> (<["speed-max" := "2"]>
    (<["track-width" := "0.5"]> (<["id-input" := "-1"]>
      (<["verbose" := "1"]> ∅))))).

End Args.

(** * Properties *)

(** ** Facts on binary32 comparison *)

Section CompareFacts.

Lemma SFcompare_antisym (x y : float) :
  SFcompare y x = option_map CompOpp (SFcompare x y).
Proof.
  destruct x as [sx|sx| |sx mx ex], y as [sy|sy| |sy my ey]; simpl;
    try reflexivity;
    try (destruct sx; reflexivity);
    try (destruct sy; reflexivity);
    try (destruct sx, sy; reflexivity).
  pose proof (Pos.compare_cont_antisym mx my Eq) as Hm; simpl in Hm.
  destruct sx, sy; simpl; try reflexivity;
    rewrite (Z.compare_antisym ex ey);
    destruct (ex ?= ey); simpl; try reflexivity;
    rewrite <- Hm; try reflexivity.
Qed.

(** [x <= y] excludes [y < x]. *)
Lemma leb_not_gtb (x y : float) :
  F32.leb x y = true -> F32.ltb y x = false.
Proof.
  unfold F32.leb, F32.ltb, SFleb, SFltb.
  rewrite (SFcompare_antisym x y).
  destruct (SFcompare x y) as [[| |]|]; simpl; congruence.
Qed.

(** Without a NaN, the failure of [y < x] is [x <= y]. *)
Lemma not_gtb_leb (x y : float) :
  F32.is_nan x = false -> F32.is_nan y = false ->
  F32.ltb y x = false -> F32.leb x y = true.
Proof.
  unfold F32.leb, F32.ltb, SFleb, SFltb.
  rewrite (SFcompare_antisym x y).
  destruct x as [sx|sx| |sx mx ex], y as [sy|sy| |sy my ey];
    simpl F32.is_nan; try discriminate; intros _ _;
    destruct (SFcompare _ _) as [[| |]|] eqn:E; simpl;
    try congruence;
    simpl in E; repeat match type of E with
                       | context [if ?b then _ else _] => destruct b
                       end; discriminate.
Qed.

(** Nothing is both below [-1.0f] and above [1.0f]. *)
Lemma ltb_minus_one_not_gtb_one (q : float) :
  F32.ltb q (F32.opp F32.one) = true -> F32.gtb q F32.one = false.
Proof.
  destruct q as [[]|[]| |[] m e]; try discriminate; reflexivity.
Qed.

(** The two constants of the saturation are strictly inside the unit
    interval. *)
Lemma c0_99_inside :
  F32.ltb F32.c0_99 F32.one = true /\
  F32.ltb (F32.opp F32.one) (F32.opp F32.c0_99) = true.
Proof. split; reflexivity. Qed.

(** [0.99f] is the binary32 number nearest to 99/100: it is a valid
    float, the division of 99 by 100 rounds to it, and at the scale
    [2^-24 / 100] it lies within half a unit in the last place. *)
Lemma c0_99_literal :
  F32.valid F32.c0_99 = true /\
  F32.div (F32.of_Z 99) (F32.of_Z 100) = F32.c0_99 /\
  Literal.stof "0.99" = Value F32.c0_99 /\
  2 * Z.abs (100 * 16609444 - 99 * 2 ^ 24) <= 100.
Proof. repeat split; try reflexivity. vm_compute. discriminate. Qed.

End CompareFacts.

(** ** The saturation *)

Section Saturation.

Lemma saturate_above (q : float) :
  F32.gtb q F32.one = true -> saturate q = F32.c0_99.
Proof. unfold saturate. intros ->. reflexivity. Qed.

Lemma saturate_below (q : float) :
  F32.ltb q (F32.opp F32.one) = true -> saturate q = F32.opp F32.c0_99.
Proof.
  intros H. unfold saturate.
  rewrite (ltb_minus_one_not_gtb_one q H), H. reflexivity.
Qed.

Lemma saturate_unchanged (q : float) :
  F32.gtb q F32.one = false -> F32.ltb q (F32.opp F32.one) = false ->
  saturate q = q.
Proof. unfold saturate. intros -> ->. reflexivity. Qed.

(** The three outcomes of the saturation, whatever the quotient is. *)
Lemma saturate_cases (q : float) :
  saturate q = F32.c0_99 \/ saturate q = F32.opp F32.c0_99 \/
  (saturate q = q /\ F32.gtb q F32.one = false
   /\ F32.ltb q (F32.opp F32.one) = false).
Proof.
  destruct (F32.gtb q F32.one) eqn:Hg.
  - left. now apply saturate_above.
  - destruct (F32.ltb q (F32.opp F32.one)) eqn:Hl.
    + right; left. now apply saturate_below.
    + right; right. split; [now apply saturate_unchanged | split; reflexivity].
Qed.

(** The result of the saturation is never above [1.0f] and never below
    [-1.0f]. *)
Lemma saturate_not_beyond (q : float) :
  F32.gtb (saturate q) F32.one = false /\
  F32.ltb (saturate q) (F32.opp F32.one) = false.
Proof.
  destruct (saturate_cases q) as [-> | [-> | (-> & Hg & Hl)]].
  - split; reflexivity.
  - split; reflexivity.
  - split; assumption.
Qed.

(** The saturation lets a NaN through and produces none. *)
Lemma saturate_nan (q : float) :
  F32.is_nan (saturate q) = F32.is_nan q.
Proof.
  unfold saturate.
  destruct q as [s|s| |s m e]; try reflexivity;
    (destruct (F32.gtb _ F32.one);
     [reflexivity | destruct (F32.ltb _ (F32.opp F32.one)); reflexivity]).
Qed.

End Saturation.

(** ** The periodic emitter *)

Section Emitter.

Variable clock : nat -> TimeStamp.
Variable cfg : Config.

Lemma emitted_app (l new : list Sent) :
  skipn (length l) (l ++ new) = new.
Proof. induction l as [|x l IH]; simpl; [reflexivity | exact IH]. Qed.

Lemma emitted_nil (l : list Sent) : skipn (length l) l = [].
Proof. induction l as [|x l IH]; simpl; [reflexivity | exact IH]. Qed.

(** A tick with the gate at 1: nothing is sent, the clock is not read,
    the stores are untouched, at most one line goes to [std::cout]. *)
Lemma atFrequency_suppressed (w : World) :
  state w = 1 ->
  atFrequency clock cfg w =
    (true,
     {| vxRequest := vxRequest w; yawRateRequest := yawRateRequest w;
        state := state w; sent := sent w;
        cout := if verbose cfg then cout w ++ [SuppressingOutput]
                else cout w;
        nowCalls := nowCalls w |}).
Proof.
  destruct w; simpl; intros ->.
  unfold atFrequency, bind, getState, when, print, ret; simpl.
  destruct (verbose cfg); reflexivity.
Qed.

(** A tick with the gate off 1: the world it leaves, in closed form. *)
Lemma atFrequency_active (w : World) :
  state w <> 1 ->
  let vl := F32.sub (vxRequest w) (F32.mul (yawRateRequest w) (trackWidth cfg)) in
  let vr := F32.add (vxRequest w) (F32.mul (yawRateRequest w) (trackWidth cfg)) in
  let ts := clock (nowCalls w) in
  let left := pedalPosition vl (speedMax cfg) in
  let right := pedalPosition vr (speedMax cfg) in
  atFrequency clock cfg w =
    (true,
     {| vxRequest := vxRequest w; yawRateRequest := yawRateRequest w;
        state := state w;
        sent := (sent w
                 ++ [ {| position := left; sampleTime := ts;
                         sentStamp := senderStampLeft cfg |} ])
                 ++ [ {| position := right; sampleTime := ts;
                         sentStamp := senderStampRight cfg |} ];
        cout := if verbose cfg
                then cout w ++ [SendingPedalRequests left right vl vr
                                  (speedMax cfg)]
                else cout w;
        nowCalls := S (nowCalls w) |}).
Proof.
  intros Hs. unfold atFrequency, bind, getState.
  destruct (Z.eqb_spec (state w) 1) as [E|_]; [contradiction|].
  unfold getRequest, wheelSpeeds, now, send, when, print, ret. simpl.
  destruct (verbose cfg); reflexivity.
Qed.

End Emitter.

(** ** Kinematics *)

Section KinematicsOnGrid.

Lemma same_eq (x y : float) : F32.same x y = true -> x = y.
Proof.
  destruct x as [a|a| |a m e], y as [b|b| |b n f]; simpl;
    try discriminate; try reflexivity.
  - destruct a, b; simpl; congruence.
  - destruct a, b; simpl; congruence.
  - intros H.
    apply andb_prop in H as (H & He). apply andb_prop in H as (Hs & Hm).
    apply Z.eqb_eq in He. apply Pos.eqb_eq in Hm.
    destruct a, b; simpl in Hs; congruence.
Qed.

Lemma points_spec (n : Z) : -16 <= n <= 16 -> In n Grid.points.
Proof.
  intros Hn. unfold Grid.points. apply in_map_iff.
  exists (Z.to_nat (n + 16)). split; [lia|].
  apply in_seq. lia.
Qed.

Lemma grid_checked :
  forallb (fun a =>
    forallb (fun b =>
      forallb (Grid.exact_at a b) Grid.points) Grid.points) Grid.points
  = true.
Proof. vm_compute. reflexivity. Qed.

(** X1. On the grid the binary32 transform is the exact one: no rounding
    takes place, and left is the difference, right the sum. *)
Lemma wheelSpeeds_exact_on_grid (a b c : Z) :
  -16 <= a <= 16 -> -16 <= b <= 16 -> -16 <= c <= 16 ->
  wheelSpeeds (Grid.quarter a) (Grid.quarter b) (Grid.quarter c)
  = (F32.of_dyadic (4 * a - b * c) (-4),
     F32.of_dyadic (4 * a + b * c) (-4)).
Proof.
  intros Ha Hb Hc.
  pose proof grid_checked as H.
  rewrite forallb_forall in H.
  specialize (H a (points_spec a Ha)). rewrite forallb_forall in H.
  specialize (H b (points_spec b Hb)). rewrite forallb_forall in H.
  specialize (H c (points_spec c Hc)).
  unfold Grid.exact_at in H.
  destruct (wheelSpeeds _ _ _) as (l, r).
  apply andb_prop in H as (Hl & Hr).
  now rewrite (same_eq _ _ Hl), (same_eq _ _ Hr).
Qed.

End KinematicsOnGrid.

(** C1. In a tick that is not suppressed, with [v] the stored forward
    velocity, [w] the stored yaw rate and [h] the configured track-width
    factor, the transform yields [v - w*h] for the left side and [v + w*h]
    for the right side (in binary32 arithmetic): these are the two wheel
    speeds, the message tagged with the left stamp carries the saturated
    left quotient and the one tagged with the right stamp the saturated
    right quotient, and the verbose line reports exactly these speeds. *)
Theorem atFrequency_kinematics (clock : nat -> TimeStamp) (cfg : Config)
    (w : World) :
  state w <> 1 ->
  let v := vxRequest w in
  let omega := yawRateRequest w in
  let h := trackWidth cfg in
  let leftSpeed := F32.sub v (F32.mul omega h) in
  let rightSpeed := F32.add v (F32.mul omega h) in
  wheelSpeeds v omega h = (leftSpeed, rightSpeed) /\
  map (fun s => (sentStamp s, position s)) (emittedBy (atFrequency clock cfg) w)
  = [ (senderStampLeft cfg, pedalPosition leftSpeed (speedMax cfg));
      (senderStampRight cfg, pedalPosition rightSpeed (speedMax cfg)) ] /\
  (verbose cfg = true ->
   cout (after (atFrequency clock cfg) w)
   = cout w ++ [ SendingPedalRequests
                   (pedalPosition leftSpeed (speedMax cfg))
                   (pedalPosition rightSpeed (speedMax cfg))
                   leftSpeed rightSpeed (speedMax cfg) ]).
Proof.
  intros Hs v omega h leftSpeed rightSpeed.
  split; [reflexivity|].
  unfold emittedBy, after.
  rewrite (atFrequency_active clock cfg w Hs); simpl.
  split.
  - rewrite <- app_assoc, emitted_app. reflexivity.
  - intros ->. reflexivity.
Qed.

Lemma atFrequency_kinematics_witness :
  state (Sample.world (F32.of_Z 1) (F32.of_Z 1) 0) <> 1 /\
  map (fun s => (sentStamp s, position s))
      (emittedBy (atFrequency Sample.clock (Sample.cfg true))
                 (Sample.world (F32.of_Z 1) (F32.of_Z 1) 0))
  = [ (0, F32.of_dyadic 1 (-2)); (1, F32.of_dyadic 3 (-2)) ].
Proof.
  split; [discriminate|].
  destruct (atFrequency_kinematics Sample.clock (Sample.cfg true)
              (Sample.world (F32.of_Z 1) (F32.of_Z 1) 0)) as (_ & H & _).
  - discriminate.
  - rewrite H. reflexivity.
Defined.

(** ** Saturation *)

(** C2. With [q = x / m] the binary32 quotient of a wheel speed by the
    configured maximum speed, the saturated position is [q] when
    [-1.0 <= q <= 1.0], exactly [0.99f] when [q > 1.0], and exactly
    [-0.99f] when [q < -1.0]. *)
Theorem pedalPosition_saturation (x m : float) :
  let q := F32.div x m in
  (F32.leb (F32.opp F32.one) q = true -> F32.leb q F32.one = true ->
   pedalPosition x m = q) /\
  (F32.gtb q F32.one = true -> pedalPosition x m = F32.c0_99) /\
  (F32.ltb q (F32.opp F32.one) = true ->
   pedalPosition x m = F32.opp F32.c0_99).
Proof.
  intros q. unfold pedalPosition. fold q. repeat split.
  - intros Hlo Hhi. apply saturate_unchanged.
    + now apply leb_not_gtb.
    + now apply leb_not_gtb.
  - apply saturate_above.
  - apply saturate_below.
Qed.

Lemma pedalPosition_saturation_witness :
  (F32.leb (F32.opp F32.one) (F32.div (F32.of_Z 1) (F32.of_Z 2)) = true /\
   F32.leb (F32.div (F32.of_Z 1) (F32.of_Z 2)) F32.one = true /\
   pedalPosition (F32.of_Z 1) (F32.of_Z 2) = F32.of_dyadic 1 (-1)) /\
  (F32.gtb (F32.div (F32.of_Z 3) (F32.of_Z 2)) F32.one = true /\
   pedalPosition (F32.of_Z 3) (F32.of_Z 2) = F32.c0_99) /\
  (F32.ltb (F32.div (F32.of_Z (-3)) (F32.of_Z 2)) (F32.opp F32.one) = true /\
   pedalPosition (F32.of_Z (-3)) (F32.of_Z 2) = F32.opp F32.c0_99).
Proof.
  split; [|split].
  - split; [reflexivity|split; [reflexivity|]].
    apply (pedalPosition_saturation (F32.of_Z 1) (F32.of_Z 2)); reflexivity.
  - split; [reflexivity|].
    apply (pedalPosition_saturation (F32.of_Z 3) (F32.of_Z 2)); reflexivity.
  - split; [reflexivity|].
    apply (pedalPosition_saturation (F32.of_Z (-3)) (F32.of_Z 2)); reflexivity.
Defined.

(** C3, as stated, fails: with a stored command [(0, 2)], track-width
    factor 1 and maximum speed 2, the wheel speeds are -2 and 2, the
    quotients are exactly -1 and 1, neither comparison of the saturation
    is strict enough to catch them, and the two positions sent are
    [-1.0f] and [1.0f]. *)
Lemma atFrequency_position_reaches_unit :
  map position
      (emittedBy
         (atFrequency Sample.clock
            {| senderStampInput := 0; senderStampLeft := 0;
               senderStampRight := 1; verbose := false;
               trackWidth := F32.of_Z 1; speedMax := F32.of_Z 2 |})
         (Sample.world (F32.of_Z 0) (F32.of_Z 2) 0))
  = [ F32.opp F32.one; F32.one ].
Proof. reflexivity. Qed.

(** C3, amended. Every position a tick sends is neither above [1.0f] nor
    below [-1.0f]: it is a NaN or lies in the closed interval
    [[-1.0, 1.0]], whose two ends it can reach. *)
Theorem atFrequency_position_bounded (clock : nat -> TimeStamp)
    (cfg : Config) (w : World) (s : Sent) :
  In s (emittedBy (atFrequency clock cfg) w) ->
  (F32.gtb (position s) F32.one = false /\
   F32.ltb (position s) (F32.opp F32.one) = false) /\
  (F32.is_nan (position s) = true \/
   (F32.leb (F32.opp F32.one) (position s) = true /\
    F32.leb (position s) F32.one = true)).
Proof.
  intros Hin.
  assert (Hsat : exists q, position s = saturate q).
  { unfold emittedBy in Hin.
    destruct (Z.eq_dec (state w) 1) as [E|E].
    - rewrite (atFrequency_suppressed clock cfg w E) in Hin; simpl in Hin.
      rewrite emitted_nil in Hin. destruct Hin.
    - rewrite (atFrequency_active clock cfg w E) in Hin; simpl in Hin.
      rewrite <- app_assoc, emitted_app in Hin.
      destruct Hin as [<- | [<- | []]]; simpl; unfold pedalPosition; eauto. }
  destruct Hsat as (q & ->).
  destruct (saturate_not_beyond q) as (Hg & Hl).
  split; [split; assumption|].
  destruct (F32.is_nan (saturate q)) eqn:Hn; [left; reflexivity | right].
  split; apply not_gtb_leb; try assumption; reflexivity.
Qed.

Lemma atFrequency_position_bounded_witness :
  In {| position := F32.c0_99; sampleTime := Sample.clock 0; sentStamp := 0 |}
     (emittedBy (atFrequency Sample.clock (Sample.cfg false))
                (Sample.world (F32.of_Z 3) (F32.of_Z 0) 0)) /\
  F32.gtb F32.c0_99 F32.one = false /\
  F32.ltb F32.c0_99 (F32.opp F32.one) = false.
Proof.
  split; [left; reflexivity|].
  refine (proj1 (atFrequency_position_bounded Sample.clock (Sample.cfg false)
                   (Sample.world (F32.of_Z 3) (F32.of_Z 0) 0)
                   {| position := F32.c0_99; sampleTime := Sample.clock 0;
                      sentStamp := 0 |} _)).
  left. reflexivity.
Defined.

(** ** The gate *)

(** C4. A tick at which the stored mode is 1 sends no message at all,
    whatever the stored motion command, and returns [true]; it reads
    neither the command store nor the clock and changes no store. *)
Theorem atFrequency_gate_suppression (clock : nat -> TimeStamp)
    (cfg : Config) (w : World) :
  state w = 1 ->
  fst (atFrequency clock cfg w) = true /\
  emittedBy (atFrequency clock cfg) w = [] /\
  sent (after (atFrequency clock cfg) w) = sent w /\
  nowCalls (after (atFrequency clock cfg) w) = nowCalls w /\
  request (after (atFrequency clock cfg) w) = request w /\
  state (after (atFrequency clock cfg) w) = state w.
Proof.
  intros Hs. unfold emittedBy, after, request.
  rewrite (atFrequency_suppressed clock cfg w Hs); simpl.
  repeat split; try reflexivity. apply emitted_nil.
Qed.

Lemma atFrequency_gate_suppression_witness :
  state (Sample.world (F32.of_Z 3) (F32.of_Z 1) 1) = 1 /\
  fst (atFrequency Sample.clock (Sample.cfg true)
         (Sample.world (F32.of_Z 3) (F32.of_Z 1) 1)) = true /\
  emittedBy (atFrequency Sample.clock (Sample.cfg true))
            (Sample.world (F32.of_Z 3) (F32.of_Z 1) 1) = [].
Proof.
  split; [reflexivity|].
  destruct (atFrequency_gate_suppression Sample.clock (Sample.cfg true)
              (Sample.world (F32.of_Z 3) (F32.of_Z 1) 1) eq_refl)
    as (H1 & H2 & _).
  split; assumption.
Defined.

(** C5. A tick at which the stored mode is not 1 sends exactly two
    messages, the first tagged with the left stamp and the second with the
    right stamp, both with the one time stamp read from the clock in that
    tick (the clock is read exactly once), and returns [true]. *)
Theorem atFrequency_gate_pass_through (clock : nat -> TimeStamp)
    (cfg : Config) (w : World) :
  state w <> 1 ->
  fst (atFrequency clock cfg w) = true /\
  (exists left right : float,
     emittedBy (atFrequency clock cfg) w
     = [ {| position := left; sampleTime := clock (nowCalls w);
            sentStamp := senderStampLeft cfg |};
         {| position := right; sampleTime := clock (nowCalls w);
            sentStamp := senderStampRight cfg |} ] /\
     sent (after (atFrequency clock cfg) w)
     = sent w ++ emittedBy (atFrequency clock cfg) w) /\
  length (emittedBy (atFrequency clock cfg) w) = 2%nat /\
  nowCalls (after (atFrequency clock cfg) w) = S (nowCalls w).
Proof.
  intros Hs. unfold emittedBy, after.
  rewrite (atFrequency_active clock cfg w Hs); simpl.
  rewrite <- app_assoc, emitted_app; simpl.
  split; [reflexivity|]. split; [|split; reflexivity].
  eexists; eexists. split; reflexivity.
Qed.

Lemma atFrequency_gate_pass_through_witness :
  state (Sample.world (F32.of_Z 1) (F32.of_Z 1) 0) <> 1 /\
  length (emittedBy (atFrequency Sample.clock (Sample.cfg false))
                    (Sample.world (F32.of_Z 1) (F32.of_Z 1) 0)) = 2%nat.
Proof.
  split; [discriminate|].
  apply (atFrequency_gate_pass_through Sample.clock (Sample.cfg false)
           (Sample.world (F32.of_Z 1) (F32.of_Z 1) 0)).
  discriminate.
Defined.

(** ** The inbound handlers *)

Section Handlers.

Variable cfg : Config.

(** A matching motion message: the store holds its two fields. *)
Lemma onGroundMotionRequest_match (envelope : Envelope) (w : World) :
  senderStamp envelope = senderStampInput cfg ->
  let msg := asGroundMotionRequest envelope in
  onGroundMotionRequest cfg envelope w =
    (tt,
     {| vxRequest := vx msg; yawRateRequest := yawRate msg;
        state := state w; sent := sent w;
        cout := if verbose cfg
                then cout w ++ [GotRequest (vx msg) (yawRate msg)]
                else cout w;
        nowCalls := nowCalls w |}).
Proof.
  intros Hs msg. unfold onGroundMotionRequest.
  rewrite Hs, Z.eqb_refl.
  unfold bind, setRequest, when, print, ret; simpl.
  destruct (verbose cfg); reflexivity.
Qed.

Lemma onGroundMotionRequest_mismatch (envelope : Envelope) (w : World) :
  senderStamp envelope <> senderStampInput cfg ->
  onGroundMotionRequest cfg envelope w = (tt, w).
Proof.
  intros Hs. unfold onGroundMotionRequest.
  destruct (Z.eqb_spec (senderStamp envelope) (senderStampInput cfg));
    [contradiction | reflexivity].
Qed.

Lemma onSwitchStateRequest_match (envelope : Envelope) (w : World) :
  senderStamp envelope = 99 ->
  let msg := asSwitchStateRequest envelope in
  onSwitchStateRequest cfg envelope w =
    (tt,
     {| vxRequest := vxRequest w; yawRateRequest := yawRateRequest w;
        state := msg_state msg; sent := sent w;
        cout := if verbose cfg
                then cout w ++ [GotSwitchState (msg_state msg)]
                else cout w;
        nowCalls := nowCalls w |}).
Proof.
  intros Hs msg. unfold onSwitchStateRequest. rewrite Hs; simpl.
  unfold bind, setState, getState, when, print, ret; simpl.
  destruct (verbose cfg); reflexivity.
Qed.

Lemma onSwitchStateRequest_mismatch (envelope : Envelope) (w : World) :
  senderStamp envelope <> 99 ->
  onSwitchStateRequest cfg envelope w = (tt, w).
Proof.
  intros Hs. unfold onSwitchStateRequest.
  destruct (Z.eqb_spec (senderStamp envelope) 99);
    [contradiction | reflexivity].
Qed.

End Handlers.

(** C7. A motion message whose sender stamp differs from the configured
    [senderStampInput] leaves the command store unchanged; the handler
    then changes nothing at all. *)
Theorem onGroundMotionRequest_source_filtering (cfg : Config)
    (envelope : Envelope) (w : World) :
  senderStamp envelope <> senderStampInput cfg ->
  request (after (onGroundMotionRequest cfg envelope) w) = request w /\
  after (onGroundMotionRequest cfg envelope) w = w.
Proof.
  intros Hs. unfold after.
  rewrite (onGroundMotionRequest_mismatch cfg envelope w Hs).
  split; reflexivity.
Qed.

Lemma onGroundMotionRequest_source_filtering_witness :
  senderStamp (Sample.envelope 7 (F32.of_Z 5) (F32.of_Z 6) 0)
    <> senderStampInput (Sample.cfg true) /\
  request (after (onGroundMotionRequest (Sample.cfg true)
                    (Sample.envelope 7 (F32.of_Z 5) (F32.of_Z 6) 0))
                 (Sample.world (F32.of_Z 1) (F32.of_Z 2) 0))
  = (F32.of_Z 1, F32.of_Z 2).
Proof.
  split; [discriminate|].
  apply (onGroundMotionRequest_source_filtering (Sample.cfg true)
           (Sample.envelope 7 (F32.of_Z 5) (F32.of_Z 6) 0)
           (Sample.world (F32.of_Z 1) (F32.of_Z 2) 0)).
  discriminate.
Defined.

(** C8. The state handler writes the gate store exactly when the sender
    stamp of the message is 99: then the stored mode becomes the mode of
    the message; for any other sender stamp the stored mode, and the whole
    world, is unchanged.  The command store is untouched either way. *)
Theorem onSwitchStateRequest_reserved_stamp (cfg : Config)
    (envelope : Envelope) (w : World) :
  (senderStamp envelope = 99 ->
   state (after (onSwitchStateRequest cfg envelope) w)
   = msg_state (asSwitchStateRequest envelope)) /\
  (senderStamp envelope <> 99 ->
   state (after (onSwitchStateRequest cfg envelope) w) = state w /\
   after (onSwitchStateRequest cfg envelope) w = w) /\
  request (after (onSwitchStateRequest cfg envelope) w) = request w.
Proof.
  unfold after, request.
  destruct (Z.eq_dec (senderStamp envelope) 99) as [E|E].
  - rewrite (onSwitchStateRequest_match cfg envelope w E); simpl.
    repeat split; try reflexivity; intros; contradiction.
  - rewrite (onSwitchStateRequest_mismatch cfg envelope w E); simpl.
    repeat split; try reflexivity; intros; contradiction.
Qed.

Lemma onSwitchStateRequest_reserved_stamp_witness :
  (senderStamp (Sample.envelope 99 F32.zero F32.zero 1) = 99 /\
   state (after (onSwitchStateRequest (Sample.cfg false)
                   (Sample.envelope 99 F32.zero F32.zero 1))
                (Sample.world F32.zero F32.zero 0)) = 1) /\
  (senderStamp (Sample.envelope 98 F32.zero F32.zero 1) <> 99 /\
   state (after (onSwitchStateRequest (Sample.cfg false)
                   (Sample.envelope 98 F32.zero F32.zero 1))
                (Sample.world F32.zero F32.zero 0)) = 0).
Proof.
  split.
  - split; [reflexivity|].
    apply (onSwitchStateRequest_reserved_stamp (Sample.cfg false)
             (Sample.envelope 99 F32.zero F32.zero 1)
             (Sample.world F32.zero F32.zero 0)).
    reflexivity.
  - split; [discriminate|].
    apply (onSwitchStateRequest_reserved_stamp (Sample.cfg false)
             (Sample.envelope 98 F32.zero F32.zero 1)
             (Sample.world F32.zero F32.zero 0)).
    discriminate.
Defined.

(** C9. Two matching motion messages in succession: the store holds
    exactly the forward velocity and yaw rate of the second, and the next
    tick sends what it would send had the second message alone arrived, in
    any world [w'] with the same gate and clock: nothing of the first
    message or of the earlier store contents is left. *)
Theorem onGroundMotionRequest_overwrite (clock : nat -> TimeStamp)
    (cfg : Config) (e1 e2 : Envelope) (w w' : World) :
  senderStamp e1 = senderStampInput cfg ->
  senderStamp e2 = senderStampInput cfg ->
  state w' = state w ->
  nowCalls w' = nowCalls w ->
  let both := after (onGroundMotionRequest cfg e2)
                    (after (onGroundMotionRequest cfg e1) w) in
  let last := after (onGroundMotionRequest cfg e2) w' in
  request both
  = (vx (asGroundMotionRequest e2), yawRate (asGroundMotionRequest e2)) /\
  emittedBy (atFrequency clock cfg) both
  = emittedBy (atFrequency clock cfg) last /\
  fst (atFrequency clock cfg both) = fst (atFrequency clock cfg last).
Proof.
  intros H1 H2 Hst Hnow both last. subst both last. unfold after.
  rewrite (onGroundMotionRequest_match cfg e1 w H1); simpl.
  rewrite !(onGroundMotionRequest_match cfg e2 _ H2); simpl.
  split; [reflexivity|].
  unfold emittedBy.
  destruct (Z.eq_dec (state w) 1) as [E|E].
  - rewrite !atFrequency_suppressed by (simpl; congruence). simpl.
    rewrite !emitted_nil. split; reflexivity.
  - rewrite !atFrequency_active by (simpl; congruence). simpl.
    rewrite <- !app_assoc, !emitted_app, Hnow. split; reflexivity.
Qed.

Lemma onGroundMotionRequest_overwrite_witness :
  senderStamp (Sample.envelope 0 (F32.of_Z 1) (F32.of_Z 0) 0)
  = senderStampInput (Sample.cfg false) /\
  senderStamp (Sample.envelope 0 (F32.of_Z 2) (F32.of_Z 0) 0)
  = senderStampInput (Sample.cfg false) /\
  request
    (after (onGroundMotionRequest (Sample.cfg false)
              (Sample.envelope 0 (F32.of_Z 2) (F32.of_Z 0) 0))
       (after (onGroundMotionRequest (Sample.cfg false)
                 (Sample.envelope 0 (F32.of_Z 1) (F32.of_Z 0) 0))
              (initialWorld 0)))
  = (F32.of_Z 2, F32.of_Z 0).
Proof.
  split; [reflexivity|]. split; [reflexivity|].
  apply (onGroundMotionRequest_overwrite Sample.clock (Sample.cfg false)
           (Sample.envelope 0 (F32.of_Z 1) (F32.of_Z 0) 0)
           (Sample.envelope 0 (F32.of_Z 2) (F32.of_Z 0) 0)
           (initialWorld 0) (initialWorld 0));
    reflexivity.
Defined.

(** ** The initial command *)

(** C10, as stated, fails: [--track-width=inf --speed-max=1] is accepted
    and gives a nonzero maximum speed, yet before any motion message the
    first active tick computes [0 * inf], a NaN, and sends NaN for both
    sides. *)
Lemma atFrequency_initial_not_zero :
  main Literal.stoi Literal.stof Sample.infiniteTrackWidth
  = Returned 0 false
      (Some {| cid := 111; freq := 10;
               config := {| senderStampInput := 0; senderStampLeft := 0;
                            senderStampRight := 1; verbose := false;
                            trackWidth := F32.infinity;
                            speedMax := F32.of_Z 1 |};
               dataTriggers := [OnGroundMotionRequest] |}) /\
  F32.eqb (F32.of_Z 1) F32.zero = false /\
  map position
      (emittedBy
         (atFrequency Sample.clock
            {| senderStampInput := 0; senderStampLeft := 0;
               senderStampRight := 1; verbose := false;
               trackWidth := F32.infinity; speedMax := F32.of_Z 1 |})
         (initialWorld 0))
  = [ F32.nan; F32.nan ].
Proof. split; [vm_compute; reflexivity | split; reflexivity]. Qed.

(** C10, amended. Before any motion message the command store holds
    [(0.0, 0.0)]; for a finite track-width factor and a maximum speed that
    is neither zero nor a NaN, an active tick then sends a zero for both
    sides: a position that compares equal to [0.0], and that is [+0.0]
    when the maximum speed is positive and [-0.0] when it is negative. *)
Theorem atFrequency_initial_zero (clock : nat -> TimeStamp) (cfg : Config)
    (s : Z) :
  s <> 1 ->
  F32.is_finite (trackWidth cfg) = true ->
  F32.is_nan (speedMax cfg) = false ->
  F32.eqb (speedMax cfg) F32.zero = false ->
  request (initialWorld s) = (F32.zero, F32.zero) /\
  exists z : float,
    map position (emittedBy (atFrequency clock cfg) (initialWorld s)) = [z; z]
    /\ F32.eqb z F32.zero = true
    /\ (F32.ltb F32.zero (speedMax cfg) = true -> z = F32.zero)
    /\ (F32.ltb (speedMax cfg) F32.zero = true -> z = F32.opp F32.zero).
Proof.
  intros Hs Hfin Hnan Hnz. split; [reflexivity|].
  unfold emittedBy.
  rewrite (atFrequency_active clock cfg (initialWorld s)) by exact Hs.
  simpl.
  destruct (trackWidth cfg) as [st|st| |st mt et]; try discriminate Hfin;
    destruct (speedMax cfg) as [sm|sm| |sm mm em];
    try discriminate Hnan; try discriminate Hnz;
    destruct st, sm; simpl;
    (eexists; split; [reflexivity | split; [reflexivity|]]);
    split; intros Hsign; try reflexivity; discriminate Hsign.
Qed.

Lemma atFrequency_initial_zero_witness :
  0 <> 1 /\
  F32.is_finite (trackWidth (Sample.cfg false)) = true /\
  F32.is_nan (speedMax (Sample.cfg false)) = false /\
  F32.eqb (speedMax (Sample.cfg false)) F32.zero = false /\
  map position
      (emittedBy (atFrequency Sample.clock (Sample.cfg false)) (initialWorld 0))
  = [ F32.zero; F32.zero ].
Proof.
  assert (Hs : 0 <> 1) by discriminate.
  repeat (split; [first [exact Hs | reflexivity] |]).
  destruct (atFrequency_initial_zero Sample.clock (Sample.cfg false) 0
              Hs eq_refl eq_refl eq_refl)
    as (_ & z & Hz & _ & Hpos & _).
  rewrite Hz, (Hpos eq_refl). reflexivity.
Defined.

(** ** Startup *)

Section Startup.

Variable stoi : string -> Thrown Z.
Variable stof : string -> Thrown float.

Lemma count_zero (commandlineArguments : gmap string string)
    (key : string) :
  (0 =? count commandlineArguments key) = true
  <-> commandlineArguments !! key = None.
Proof.
  unfold count. destruct (commandlineArguments !! key); simpl;
    split; intros H; try reflexivity; discriminate H.
Qed.

Lemma main_usage (commandlineArguments : gmap string string) :
  missingRequired commandlineArguments <->
  main stoi stof commandlineArguments = Returned 1 true None.
Proof.
  unfold missingRequired, main.
  rewrite <- !count_zero.
  destruct (0 =? count commandlineArguments "cid"),
           (0 =? count commandlineArguments "freq"),
           (0 =? count commandlineArguments "speed-max"),
           (0 =? count commandlineArguments "track-width"); simpl;
    try (split; [reflexivity | tauto]).
  split.
  - intros [H|[H|[H|H]]]; discriminate H.
  - destruct (setup stoi stof commandlineArguments); discriminate.
Qed.

(** The maximum speed a session is set up with is what [std::stof]
    made of the argument, unexamined. *)
Lemma setup_speedMax (commandlineArguments : gmap string string)
    (session : Session) :
  setup stoi stof commandlineArguments = Value session ->
  stof (at_key commandlineArguments "speed-max")
  = Value (speedMax (config session)).
Proof.
  unfold setup, tbind.
  repeat match goal with
         | |- context [match ?c with Value _ => _ | Throw _ => _ end] =>
             destruct c; try discriminate
         end.
  intros [= <-]. reflexivity.
Qed.

(** The only closure [main] passes to [od4.dataTrigger] is the motion
    handler (lines 157-158). *)
Lemma setup_dataTriggers (commandlineArguments : gmap string string)
    (session : Session) :
  setup stoi stof commandlineArguments = Value session ->
  dataTriggers session = [OnGroundMotionRequest].
Proof.
  unfold setup, tbind.
  repeat match goal with
         | |- context [match ?c with Value _ => _ | Throw _ => _ end] =>
             destruct c; try discriminate
         end.
  intros [= <-]. reflexivity.
Qed.

End Startup.

(** C6, as stated, fails: on
    [--cid=111 --freq=10 --speed-max=0 --track-width=0.5] the process
    prints no usage text, operates the session with a maximum speed of
    [0.0f], and returns 0. *)
Lemma main_accepts_zero_speedMax :
  main Literal.stoi Literal.stof Sample.zeroSpeedMax
  = Returned 0 false
      (Some {| cid := 111; freq := 10;
               config := {| senderStampInput := 0; senderStampLeft := 0;
                            senderStampRight := 1; verbose := false;
                            trackWidth := F32.of_dyadic 1 (-1);
                            speedMax := F32.zero |};
               dataTriggers := [OnGroundMotionRequest] |}).
Proof. vm_compute. reflexivity. Qed.

(** C6, amended. The startup check of [main] is the presence of the four
    required arguments and nothing else: the process exits with status 1
    and the usage text, without operating, exactly when one of [cid],
    [freq], [speed-max], [track-width] is absent.  The value of
    [speed-max] is not examined: whenever the arguments are present and
    converted without an exception, the session is operated with the
    maximum speed [std::stof] returned, zero included, and [main]
    returns 0 without a usage text. *)
Theorem main_startup_checks (stoi : string -> Thrown Z)
    (stof : string -> Thrown float)
    (commandlineArguments : gmap string string) :
  (missingRequired commandlineArguments <->
   main stoi stof commandlineArguments = Returned 1 true None) /\
  (forall session : Session,
     ~ missingRequired commandlineArguments ->
     setup stoi stof commandlineArguments = Value session ->
     main stoi stof commandlineArguments = Returned 0 false (Some session) /\
     stof (at_key commandlineArguments "speed-max")
     = Value (speedMax (config session))).
Proof.
  split; [apply main_usage|].
  intros session Hpresent Hsetup.
  split; [|now apply (setup_speedMax stoi stof)].
  unfold main.
  destruct (_ || _) eqn:Hc.
  - exfalso. apply Hpresent. apply (main_usage stoi stof).
    unfold main. rewrite Hc. reflexivity.
  - rewrite Hsetup. reflexivity.
Qed.

Lemma main_startup_checks_witness :
  ~ missingRequired Sample.zeroSpeedMax /\
  main Literal.stoi Literal.stof Sample.zeroSpeedMax
  = Returned 0 false
      (Some {| cid := 111; freq := 10;
               config := {| senderStampInput := 0; senderStampLeft := 0;
                            senderStampRight := 1; verbose := false;
                            trackWidth := F32.of_dyadic 1 (-1);
                            speedMax := F32.zero |};
               dataTriggers := [OnGroundMotionRequest] |}).
Proof.
  assert (Hpresent : ~ missingRequired Sample.zeroSpeedMax).
  { intros [H|[H|[H|H]]]; vm_compute in H; discriminate H. }
  split; [exact Hpresent|].
  apply (proj2 (main_startup_checks Literal.stoi Literal.stof
                  Sample.zeroSpeedMax)).
  - exact Hpresent.
  - vm_compute. reflexivity.
Defined.

(** X2. With a maximum speed of zero every quotient is an infinity or a NaN,
    so a session set up that way sends [0.99f], [-0.99f] or a NaN. *)
Lemma pedalPosition_speedMax_zero (v : float) (s : bool) :
  pedalPosition v (S754_zero s) = F32.c0_99 \/
  pedalPosition v (S754_zero s) = F32.opp F32.c0_99 \/
  pedalPosition v (S754_zero s) = F32.nan.
Proof.
  destruct v as [[]|[]| |[] m e], s; simpl; auto.
Qed.

(** ** The examples of the specification *)

(** Maximum speed 2, track-width factor 0.5, command (1, 1): wheel speeds
    0.5 and 1.5, positions 0.25 and 0.75. *)
Example end_to_end :
  wheelSpeeds (F32.of_Z 1) (F32.of_Z 1) (F32.of_dyadic 1 (-1))
  = (F32.of_dyadic 1 (-1), F32.of_dyadic 3 (-1)) /\
  map position
      (emittedBy (atFrequency Sample.clock (Sample.cfg false))
                 (Sample.world (F32.of_Z 1) (F32.of_Z 1) 0))
  = [ F32.of_dyadic 1 (-2); F32.of_dyadic 3 (-2) ].
Proof. split; reflexivity. Qed.

(** Same configuration, command (3, 0): wheel speeds 3 and 3, positions
    [0.99f] and [0.99f]. *)
Example end_to_end_saturated :
  wheelSpeeds (F32.of_Z 3) (F32.of_Z 0) (F32.of_dyadic 1 (-1))
  = (F32.of_Z 3, F32.of_Z 3) /\
  map position
      (emittedBy (atFrequency Sample.clock (Sample.cfg false))
                 (Sample.world (F32.of_Z 3) (F32.of_Z 0) 0))
  = [ F32.c0_99; F32.c0_99 ].
Proof. split; reflexivity. Qed.


(** * Further properties *)

(** ** Sign symmetry of binary32 arithmetic *)

Section SignSymmetry.

Lemma binary_round_aux_negb (s : bool) (m e : Z) (l : location) :
  binary_round_aux F32.prec F32.emax (negb s) m e l
  = SFopp (binary_round_aux F32.prec F32.emax s m e l).
Proof.
  unfold binary_round_aux.
  destruct (shr_fexp _ _ m e l) as (mrs', e').
  destruct (shr_fexp _ _ _ e' loc_Exact) as (mrs'', e'').
  destruct (shr_m mrs''); try reflexivity.
  destruct (e'' <=? F32.emax - F32.prec); reflexivity.
Qed.

Lemma mul_opp_l (x y : float) :
  F32.mul (F32.opp x) y = F32.opp (F32.mul x y).
Proof.
  destruct x as [sx|sx| |sx mx ex], y as [sy|sy| |sy my ey]; simpl;
    try reflexivity; try (destruct sx, sy; reflexivity).
  rewrite <- binary_round_aux_negb. destruct sx, sy; reflexivity.
Qed.

Lemma div_opp_l (x y : float) :
  F32.div (F32.opp x) y = F32.opp (F32.div x y).
Proof.
  destruct x as [sx|sx| |sx mx ex], y as [sy|sy| |sy my ey]; simpl;
    try reflexivity; try (destruct sx, sy; reflexivity).
  unfold F32.div, SFdiv.
  destruct (SFdiv_core_binary _ _ _ _ _ _) as ((mz, ez), lz).
  rewrite <- binary_round_aux_negb. destruct sx, sy; reflexivity.
Qed.


Lemma sub_opp_r (x y : float) :
  F32.sub x (F32.opp y) = F32.add x y.
Proof.
  destruct x as [sx|sx| |sx mx ex], y as [sy|sy| |sy my ey];
    try reflexivity; try (destruct sx, sy; reflexivity);
    try (destruct sy; reflexivity).
Qed.

Lemma add_opp_r (x y : float) :
  F32.add x (F32.opp y) = F32.sub x y.
Proof.
  destruct x as [sx|sx| |sx mx ex], y as [sy|sy| |sy my ey];
    try reflexivity; try (destruct sx, sy; reflexivity);
    try (destruct sy; reflexivity).
Qed.

Lemma SFcompare_opp (x y : float) :
  SFcompare (F32.opp x) (F32.opp y) = SFcompare y x.
Proof.
  rewrite (SFcompare_antisym x y).
  destruct x as [sx|sx| |sx mx ex], y as [sy|sy| |sy my ey]; simpl;
    try reflexivity;
    try (destruct sx; reflexivity);
    try (destruct sy; reflexivity);
    try (destruct sx, sy; reflexivity).
  destruct sx, sy; simpl; try reflexivity;
    destruct (ex ?= ey); simpl; try reflexivity.
  now rewrite CompOpp_involutive.
Qed.

Lemma opp_involutive (x : float) : F32.opp (F32.opp x) = x.
Proof. destruct x as [[]|[]| |[] m e]; reflexivity. Qed.

End SignSymmetry.

(** ** More on the saturation *)

(** X3. Saturating twice is saturating once: a position that is sent would
    pass the saturation unchanged. *)
Theorem saturate_idempotent (q : float) :
  saturate (saturate q) = saturate q.
Proof.
  destruct (F32.gtb q F32.one) eqn:Hg.
  - rewrite (saturate_above q Hg). reflexivity.
  - destruct (F32.ltb q (F32.opp F32.one)) eqn:Hl.
    + rewrite (saturate_below q Hl). reflexivity.
    + now rewrite !(saturate_unchanged q Hg Hl).
Qed.

(** The saturation is odd, the two comparisons and the two constants
    being mirror images of each other. *)
Lemma saturate_opp (q : float) :
  saturate (F32.opp q) = F32.opp (saturate q).
Proof.
  assert (Hg : F32.gtb (F32.opp q) F32.one = F32.ltb q (F32.opp F32.one)).
  { unfold F32.gtb, F32.ltb, SFltb.
    rewrite <- (SFcompare_opp (F32.opp F32.one) q).
    rewrite opp_involutive. reflexivity. }
  assert (Hl : F32.ltb (F32.opp q) (F32.opp F32.one) = F32.gtb q F32.one).
  { unfold F32.gtb, F32.ltb, SFltb. rewrite SFcompare_opp. reflexivity. }
  destruct (F32.gtb q F32.one) eqn:Eg.
  - rewrite (saturate_above q Eg). apply saturate_below. now rewrite Hl.
  - destruct (F32.ltb q (F32.opp F32.one)) eqn:El.
    + rewrite (saturate_below q El). apply saturate_above. now rewrite Hg.
    + rewrite (saturate_unchanged q Eg El). apply saturate_unchanged.
      * now rewrite Hg.
      * now rewrite Hl.
Qed.

Lemma pedalPosition_opp_l (v speedMax : float) :
  pedalPosition (F32.opp v) speedMax = F32.opp (pedalPosition v speedMax).
Proof.
  unfold pedalPosition. rewrite div_opp_l. apply saturate_opp.
Qed.


(** Comparison through [1.0f]: what is at most one is below what is
    above one. *)
Lemma ltb_through_one (q q' : float) :
  F32.leb q F32.one = true -> F32.gtb q' F32.one = true ->
  F32.ltb q q' = true.
Proof.
  unfold F32.gtb, F32.ltb, F32.leb, SFltb, SFleb.
  destruct q as [[]|[]| |[] m e]; try (intros H; discriminate H);
    destruct q' as [[]|[]| |[] m' e']; try (intros _ H; discriminate H);
    try (intros _ _; reflexivity).
  cbv beta iota delta [SFcompare F32.one].
  fold (Pos.compare m 8388608). fold (Pos.compare 8388608 m').
  fold (Pos.compare m m').
  destruct (Z.compare_spec e (-23)) as [He|He|He];
    destruct (Z.compare_spec (-23) e') as [He'|He'|He'];
    try (intros H; discriminate H); try (intros _ H; discriminate H).
  - subst e e'. rewrite Z.compare_refl.
    destruct (Pos.compare_spec m 8388608) as [Hm|Hm|Hm];
      destruct (Pos.compare_spec 8388608 m') as [Hm'|Hm'|Hm'];
      try (intros H; discriminate H); try (intros _ H; discriminate H);
      intros _ _.
    + subst m. rewrite (proj2 (Pos.compare_lt_iff _ _) Hm'). reflexivity.
    + rewrite (proj2 (Pos.compare_lt_iff m m')); [reflexivity|].
      eapply Pos.lt_trans; eassumption.
  - intros _ _. subst e.
    rewrite (proj2 (Z.compare_lt_iff _ _) He'). reflexivity.
  - intros _ _. subst e'.
    rewrite (proj2 (Z.compare_lt_iff _ _) He). reflexivity.
  - intros _ _. rewrite (proj2 (Z.compare_lt_iff e e')); [reflexivity|].
    eapply Z.lt_trans; eassumption.
Qed.

(** X5. The saturation is not monotone: a quotient above [0.99f] and up to
    [1.0f] passes unchanged, while every quotient above [1.0f] becomes
    [0.99f]; so the larger quotient gets the strictly smaller position. *)
Theorem saturate_not_monotone (q q' : float) :
  F32.ltb F32.c0_99 q = true ->
  F32.leb q F32.one = true ->
  F32.gtb q' F32.one = true ->
  F32.ltb q q' = true /\
  F32.ltb (saturate q') (saturate q) = true.
Proof.
  intros Hlo Hhi Hq'.
  assert (Hneg : F32.ltb q (F32.opp F32.one) = false).
  { destruct q as [[]|[]| |[] m e]; try discriminate Hlo; reflexivity. }
  rewrite (saturate_above q' Hq').
  rewrite (saturate_unchanged q (leb_not_gtb _ _ Hhi) Hneg).
  split; [now apply ltb_through_one | exact Hlo].
Qed.

Lemma saturate_not_monotone_witness :
  F32.ltb F32.c0_99 F32.one = true /\
  F32.leb F32.one F32.one = true /\
  F32.gtb (F32.of_Z 2) F32.one = true /\
  F32.ltb (saturate (F32.of_Z 2)) (saturate F32.one) = true.
Proof.
  repeat (split; [reflexivity|]).
  apply (saturate_not_monotone F32.one (F32.of_Z 2)); reflexivity.
Defined.

(** ** More on the kinematics *)

Lemma wheelSpeeds_yaw_reversed (v omega h : float) :
  wheelSpeeds v (F32.opp omega) h
  = (snd (wheelSpeeds v omega h), fst (wheelSpeeds v omega h)).
Proof.
  unfold wheelSpeeds; simpl.
  now rewrite mul_opp_l, sub_opp_r, add_opp_r.
Qed.



(** X7. Driving straight: with a yaw rate of zero (of either sign), a finite
    track-width factor and a forward velocity other than zero, both wheel
    speeds are the forward velocity itself, without rounding, and an
    active tick sends one and the same position to both sides. *)
Theorem atFrequency_straight (clock : nat -> TimeStamp) (cfg : Config)
    (w : World) :
  state w <> 1 ->
  F32.eqb (yawRateRequest w) F32.zero = true ->
  F32.is_finite (trackWidth cfg) = true ->
  F32.eqb (vxRequest w) F32.zero = false ->
  wheelSpeeds (vxRequest w) (yawRateRequest w) (trackWidth cfg)
  = (vxRequest w, vxRequest w) /\
  map position (emittedBy (atFrequency clock cfg) w)
  = [ pedalPosition (vxRequest w) (speedMax cfg);
      pedalPosition (vxRequest w) (speedMax cfg) ].
Proof.
  intros Hs Hy Hh Hv.
  assert (Hw : wheelSpeeds (vxRequest w) (yawRateRequest w) (trackWidth cfg)
               = (vxRequest w, vxRequest w)).
  { unfold wheelSpeeds.
    destruct (yawRateRequest w) as [sy|[]| |[] my ey]; try discriminate Hy.
    destruct (trackWidth cfg) as [sh|sh| |sh mh eh]; try discriminate Hh;
      destruct (vxRequest w) as [sv|sv| |sv mv ev]; try discriminate Hv;
      reflexivity. }
  split; [exact Hw|].
  unfold emittedBy. rewrite (atFrequency_active clock cfg w Hs). simpl.
  rewrite <- !app_assoc, !emitted_app. simpl.
  unfold wheelSpeeds in Hw. injection Hw as -> ->. reflexivity.
Qed.

Lemma atFrequency_straight_witness :
  state (Sample.world (F32.of_Z 1) F32.zero 0) <> 1 /\
  F32.eqb F32.zero F32.zero = true /\
  F32.is_finite (trackWidth (Sample.cfg false)) = true /\
  F32.eqb (F32.of_Z 1) F32.zero = false /\
  map position
      (emittedBy (atFrequency Sample.clock (Sample.cfg false))
                 (Sample.world (F32.of_Z 1) F32.zero 0))
  = [ F32.of_dyadic 1 (-1); F32.of_dyadic 1 (-1) ].
Proof.
  assert (Hs : state (Sample.world (F32.of_Z 1) F32.zero 0) <> 1)
    by discriminate.
  split; [exact Hs|]. repeat (split; [reflexivity|]).
  apply (proj2 (atFrequency_straight Sample.clock (Sample.cfg false)
                  (Sample.world (F32.of_Z 1) F32.zero 0)
                  Hs eq_refl eq_refl eq_refl)).
Defined.

(** X8. Turning on the spot: with a forward velocity of zero (of either sign)
    and a product [yawRate * trackWidth] other than zero, the left wheel
    speed is the opposite of the right one, and an active tick sends
    opposite positions to the two sides. *)
Theorem atFrequency_spin (clock : nat -> TimeStamp) (cfg : Config)
    (w : World) :
  state w <> 1 ->
  F32.eqb (vxRequest w) F32.zero = true ->
  F32.eqb (F32.mul (yawRateRequest w) (trackWidth cfg)) F32.zero = false ->
  let p := F32.mul (yawRateRequest w) (trackWidth cfg) in
  wheelSpeeds (vxRequest w) (yawRateRequest w) (trackWidth cfg)
  = (F32.opp p, p) /\
  map position (emittedBy (atFrequency clock cfg) w)
  = [ F32.opp (pedalPosition p (speedMax cfg));
      pedalPosition p (speedMax cfg) ].
Proof.
  intros Hs Hv Hp p.
  assert (Hw : wheelSpeeds (vxRequest w) (yawRateRequest w) (trackWidth cfg)
               = (F32.opp p, p)).
  { unfold wheelSpeeds. fold p. fold p in Hp.
    destruct (vxRequest w) as [sv|[]| |[] mv ev]; try discriminate Hv.
    destruct p as [sp|sp| |sp mp ep]; try discriminate Hp;
      destruct sv; reflexivity. }
  split; [exact Hw|].
  unfold emittedBy. rewrite (atFrequency_active clock cfg w Hs). simpl.
  rewrite <- !app_assoc, !emitted_app. simpl.
  unfold wheelSpeeds in Hw. subst p. injection Hw as Hl Hr.
  now rewrite Hl, Hr, pedalPosition_opp_l.
Qed.

Lemma atFrequency_spin_witness :
  state (Sample.world F32.zero (F32.of_Z 1) 0) <> 1 /\
  F32.eqb F32.zero F32.zero = true /\
  F32.eqb (F32.mul (F32.of_Z 1) (trackWidth (Sample.cfg false))) F32.zero
  = false /\
  map position
      (emittedBy (atFrequency Sample.clock (Sample.cfg false))
                 (Sample.world F32.zero (F32.of_Z 1) 0))
  = [ F32.opp (F32.of_dyadic 1 (-2)); F32.of_dyadic 1 (-2) ].
Proof.
  assert (Hs : state (Sample.world F32.zero (F32.of_Z 1) 0) <> 1)
    by discriminate.
  split; [exact Hs|]. repeat (split; [reflexivity|]).
  apply (proj2 (atFrequency_spin Sample.clock (Sample.cfg false)
                  (Sample.world F32.zero (F32.of_Z 1) 0)
                  Hs eq_refl eq_refl)).
Defined.

(** ** What the closures leave alone *)

Lemma emitted_pair (l : list Sent) (x y : Sent) :
  skipn (length l) ((l ++ [x]) ++ [y]) = [x; y].
Proof. rewrite <- app_assoc. apply emitted_app. Qed.

Lemma atFrequency_keeps (clock : nat -> TimeStamp) (cfg : Config)
    (w : World) :
  fst (atFrequency clock cfg w) = true /\
  request (after (atFrequency clock cfg) w) = request w /\
  state (after (atFrequency clock cfg) w) = state w.
Proof.
  unfold after, request.
  destruct (Z.eq_dec (state w) 1) as [E|E].
  - rewrite (atFrequency_suppressed clock cfg w E). repeat split.
  - rewrite (atFrequency_active clock cfg w E). repeat split.
Qed.

(** X9. A tick never stops the schedule and never writes a store: in every
    world it returns [true] and leaves the stored command and the stored
    mode as they were; what was sent before stays in the outbox, in front
    of what the tick sends, and the clock count does not go back. *)
Theorem atFrequency_frame (clock : nat -> TimeStamp) (cfg : Config)
    (w : World) :
  fst (atFrequency clock cfg w) = true /\
  request (after (atFrequency clock cfg) w) = request w /\
  state (after (atFrequency clock cfg) w) = state w /\
  sent (after (atFrequency clock cfg) w)
  = sent w ++ emittedBy (atFrequency clock cfg) w /\
  (nowCalls w <= nowCalls (after (atFrequency clock cfg) w))%nat.
Proof.
  unfold emittedBy, after, request.
  destruct (Z.eq_dec (state w) 1) as [E|E].
  - rewrite (atFrequency_suppressed clock cfg w E). simpl.
    rewrite emitted_nil, app_nil_r. repeat split. lia.
  - rewrite (atFrequency_active clock cfg w E). simpl.
    rewrite emitted_pair, <- app_assoc. repeat split. lia.
Qed.

(** X10. Ticks carry nothing over: a tick that directly follows another sends
    the same positions under the same sender stamps; only the time stamp
    moves on. *)
Theorem atFrequency_repeatable (clock : nat -> TimeStamp) (cfg : Config)
    (w : World) :
  map (fun s => (sentStamp s, position s))
      (emittedBy (atFrequency clock cfg) (after (atFrequency clock cfg) w))
  = map (fun s => (sentStamp s, position s))
        (emittedBy (atFrequency clock cfg) w).
Proof.
  unfold emittedBy, after.
  destruct (Z.eq_dec (state w) 1) as [E|E].
  - rewrite (atFrequency_suppressed clock cfg w E). simpl.
    rewrite atFrequency_suppressed by exact E. simpl.
    now rewrite !emitted_nil.
  - rewrite (atFrequency_active clock cfg w E). simpl.
    rewrite atFrequency_active by exact E. simpl.
    now rewrite !emitted_pair.
Qed.

Lemma onGroundMotionRequest_keeps (cfg : Config) (envelope : Envelope)
    (w : World) :
  sent (after (onGroundMotionRequest cfg envelope) w) = sent w /\
  nowCalls (after (onGroundMotionRequest cfg envelope) w) = nowCalls w /\
  state (after (onGroundMotionRequest cfg envelope) w) = state w.
Proof.
  unfold after.
  destruct (Z.eq_dec (senderStamp envelope) (senderStampInput cfg)) as [E|E].
  - rewrite (onGroundMotionRequest_match cfg envelope w E). repeat split.
  - rewrite (onGroundMotionRequest_mismatch cfg envelope w E). repeat split.
Qed.

(** X11. The inbound handlers only write their own store: neither sends a
    message nor reads the clock, the motion handler never touches the
    stored mode, and the state handler never touches the stored command,
    whatever the envelope. *)
Theorem handlers_frame (cfg : Config) (envelope : Envelope) (w : World) :
  (emittedBy (onGroundMotionRequest cfg envelope) w = [] /\
   sent (after (onGroundMotionRequest cfg envelope) w) = sent w /\
   nowCalls (after (onGroundMotionRequest cfg envelope) w) = nowCalls w /\
   state (after (onGroundMotionRequest cfg envelope) w) = state w) /\
  (emittedBy (onSwitchStateRequest cfg envelope) w = [] /\
   sent (after (onSwitchStateRequest cfg envelope) w) = sent w /\
   nowCalls (after (onSwitchStateRequest cfg envelope) w) = nowCalls w /\
   request (after (onSwitchStateRequest cfg envelope) w) = request w).
Proof.
  unfold emittedBy, after, request. split.
  - destruct (Z.eq_dec (senderStamp envelope) (senderStampInput cfg)) as [E|E].
    + rewrite (onGroundMotionRequest_match cfg envelope w E). simpl.
      rewrite emitted_nil. repeat split.
    + rewrite (onGroundMotionRequest_mismatch cfg envelope w E). simpl.
      rewrite emitted_nil. repeat split.
  - destruct (Z.eq_dec (senderStamp envelope) 99) as [E|E].
    + rewrite (onSwitchStateRequest_match cfg envelope w E). simpl.
      rewrite emitted_nil. repeat split.
    + rewrite (onSwitchStateRequest_mismatch cfg envelope w E). simpl.
      rewrite emitted_nil. repeat split.
Qed.

(** ** The verbosity flag *)

Lemma silent_cout (a b : World) :
  vxRequest a = vxRequest b -> yawRateRequest a = yawRateRequest b ->
  state a = state b -> sent a = sent b -> nowCalls a = nowCalls b ->
  silent a = silent b.
Proof. unfold silent. intros -> -> -> -> ->. reflexivity. Qed.

(** X12. [verbose] changes the diagnostic output and nothing else: under two
    configurations that differ in it at most, each of the three closures
    leaves the same stores, the same outbox and the same clock count, and
    the tick returns the same value; and without [verbose] no closure
    writes to [std::cout]. *)
Theorem verbose_only_prints (clock : nat -> TimeStamp) (a b : Config)
    (envelope : Envelope) (w : World) :
  sameButVerbose a b ->
  (silent (after (onGroundMotionRequest a envelope) w)
   = silent (after (onGroundMotionRequest b envelope) w) /\
   silent (after (onSwitchStateRequest a envelope) w)
   = silent (after (onSwitchStateRequest b envelope) w) /\
   silent (after (atFrequency clock a) w)
   = silent (after (atFrequency clock b) w) /\
   fst (atFrequency clock a w) = fst (atFrequency clock b w)) /\
  (verbose a = false ->
   cout (after (onGroundMotionRequest a envelope) w) = cout w /\
   cout (after (onSwitchStateRequest a envelope) w) = cout w /\
   cout (after (atFrequency clock a) w) = cout w).
Proof.
  intros (Hi & Hl & Hr & Ht & Hm). unfold after. split.
  - repeat split.
    + destruct (Z.eq_dec (senderStamp envelope) (senderStampInput a)) as [E|E].
      * rewrite (onGroundMotionRequest_match a envelope w E).
        rewrite (onGroundMotionRequest_match b envelope w) by congruence.
        apply silent_cout; reflexivity.
      * rewrite (onGroundMotionRequest_mismatch a envelope w E).
        rewrite (onGroundMotionRequest_mismatch b envelope w) by congruence.
        reflexivity.
    + destruct (Z.eq_dec (senderStamp envelope) 99) as [E|E].
      * rewrite (onSwitchStateRequest_match a envelope w E).
        rewrite (onSwitchStateRequest_match b envelope w E).
        apply silent_cout; reflexivity.
      * rewrite (onSwitchStateRequest_mismatch a envelope w E).
        rewrite (onSwitchStateRequest_mismatch b envelope w E).
        reflexivity.
    + destruct (Z.eq_dec (state w) 1) as [E|E].
      * rewrite (atFrequency_suppressed clock a w E).
        rewrite (atFrequency_suppressed clock b w E).
        apply silent_cout; reflexivity.
      * rewrite (atFrequency_active clock a w E).
        rewrite (atFrequency_active clock b w E).
        apply silent_cout; simpl; try reflexivity.
        now rewrite Hl, Hr, Ht, Hm.
    + now rewrite (proj1 (atFrequency_keeps clock a w)),
                  (proj1 (atFrequency_keeps clock b w)).
  - intros Hv. repeat split.
    + destruct (Z.eq_dec (senderStamp envelope) (senderStampInput a)) as [E|E].
      * rewrite (onGroundMotionRequest_match a envelope w E), Hv. reflexivity.
      * rewrite (onGroundMotionRequest_mismatch a envelope w E). reflexivity.
    + destruct (Z.eq_dec (senderStamp envelope) 99) as [E|E].
      * rewrite (onSwitchStateRequest_match a envelope w E), Hv. reflexivity.
      * rewrite (onSwitchStateRequest_mismatch a envelope w E). reflexivity.
    + destruct (Z.eq_dec (state w) 1) as [E|E].
      * rewrite (atFrequency_suppressed clock a w E), Hv. reflexivity.
      * rewrite (atFrequency_active clock a w E), Hv. reflexivity.
Qed.

Lemma verbose_only_prints_witness :
  sameButVerbose (Sample.cfg true) (Sample.cfg false) /\
  silent (after (atFrequency Sample.clock (Sample.cfg true))
                (Sample.world (F32.of_Z 1) (F32.of_Z 1) 0))
  = silent (after (atFrequency Sample.clock (Sample.cfg false))
                  (Sample.world (F32.of_Z 1) (F32.of_Z 1) 0)).
Proof.
  assert (H : sameButVerbose (Sample.cfg true) (Sample.cfg false))
    by (repeat split).
  split; [exact H|].
  apply (proj1 (verbose_only_prints Sample.clock (Sample.cfg true)
                  (Sample.cfg false)
                  (Sample.envelope 0 F32.zero F32.zero 0)
                  (Sample.world (F32.of_Z 1) (F32.of_Z 1) 0) H)).
Defined.

(** ** The session in operation *)

Lemma lastRequest_some (cfg : Config) (events : list Event) :
  forall m : GroundMotionRequest,
    exists m', lastRequest cfg events (Some m) = Some m'.
Proof.
  induction events as [|ev rest IH]; intros m; simpl; [eauto|].
  destruct ev as [envelope|envelope|]; try apply IH.
  destruct (senderStamp envelope =? senderStampInput cfg); apply IH.
Qed.

Section Runs.

Variable clock : nat -> TimeStamp.
Variable session : Session.

(** No call into the program ends the operation. *)
Lemma step_continues (ev : Event) (w : World) :
  fst (step clock session ev w) = true.
Proof.
  destruct ev as [envelope|envelope|]; simpl.
  - destruct (registered session OnGroundMotionRequest); [|reflexivity].
    unfold bind.
    destruct (onGroundMotionRequest (config session) envelope w).
    reflexivity.
  - destruct (registered session OnSwitchStateRequest); [|reflexivity].
    unfold bind.
    destruct (onSwitchStateRequest (config session) envelope w).
    reflexivity.
  - apply atFrequency_keeps.
Qed.

Lemma operate_cons (ev : Event) (rest : list Event) (w : World) :
  operate clock session (ev :: rest) w
  = operate clock session rest (snd (step clock session ev w)).
Proof.
  simpl. pose proof (step_continues ev w) as H.
  destruct (step clock session ev w) as (c, w'). simpl in *.
  now rewrite H.
Qed.

Hypothesis Hreg : dataTriggers session = [OnGroundMotionRequest].

Lemma step_motion (envelope : Envelope) (w : World) :
  snd (step clock session (MotionArrives envelope) w)
  = after (onGroundMotionRequest (config session) envelope) w.
Proof.
  unfold after. simpl. unfold registered. rewrite Hreg. simpl.
  unfold bind.
  destruct (onGroundMotionRequest (config session) envelope w).
  reflexivity.
Qed.

Lemma step_switchState (envelope : Envelope) (w : World) :
  snd (step clock session (SwitchStateArrives envelope) w) = w.
Proof.
  simpl. unfold registered. rewrite Hreg. reflexivity.
Qed.

Lemma operate_state (events : list Event) (w : World) :
  state (operate clock session events w) = state w.
Proof.
  revert w. induction events as [|ev rest IH]; intros w; [reflexivity|].
  rewrite operate_cons, IH.
  destruct ev as [envelope|envelope|].
  - rewrite step_motion. apply onGroundMotionRequest_keeps.
  - now rewrite step_switchState.
  - apply atFrequency_keeps.
Qed.

Lemma operate_sent (events : list Event) (w : World) :
  length (sent (operate clock session events w))
  = (length (sent w)
     + if Z.eqb (state w) 1 then 0 else 2 * ticks events)%nat /\
  nowCalls (operate clock session events w)
  = (nowCalls w + if Z.eqb (state w) 1 then 0 else ticks events)%nat.
Proof.
  revert w. induction events as [|ev rest IH]; intros w.
  - simpl. destruct (state w =? 1); split; lia.
  - rewrite operate_cons.
    destruct (IH (snd (step clock session ev w))) as (IHs & IHn).
    rewrite IHs, IHn. clear IH IHs IHn.
    destruct ev as [envelope|envelope|].
    + rewrite step_motion.
      destruct (onGroundMotionRequest_keeps (config session) envelope w)
        as (-> & -> & ->).
      simpl. split; reflexivity.
    + rewrite step_switchState. simpl. split; reflexivity.
    + simpl ticks. simpl step.
      destruct (Z.eqb_spec (state w) 1) as [E|E].
      * rewrite (atFrequency_suppressed clock (config session) w E). simpl.
        rewrite E. simpl. split; reflexivity.
      * rewrite (atFrequency_active clock (config session) w E). simpl.
        destruct (Z.eqb_spec (state w) 1) as [E'|_]; [contradiction|].
        rewrite !length_app. simpl. split; lia.
Qed.

Lemma operate_request (events : list Event) :
  forall (w : World) (acc : option GroundMotionRequest),
    (forall m, acc = Some m -> request w = (vx m, yawRate m)) ->
    request (operate clock session events w)
    = match lastRequest (config session) events acc with
      | Some m => (vx m, yawRate m)
      | None => request w
      end.
Proof.
  induction events as [|ev rest IH]; intros w acc Hacc.
  - simpl. destruct acc as [m|]; [now apply Hacc | reflexivity].
  - rewrite operate_cons.
    destruct ev as [envelope|envelope|].
    + rewrite step_motion. simpl lastRequest. unfold after.
      destruct (Z.eqb_spec (senderStamp envelope)
                  (senderStampInput (config session))) as [E|E].
      * rewrite (onGroundMotionRequest_match (config session) envelope w E).
        simpl snd.
        rewrite (IH _ (Some (asGroundMotionRequest envelope))).
        -- destruct (lastRequest_some (config session) rest
                       (asGroundMotionRequest envelope)) as (m' & ->).
           reflexivity.
        -- intros m [= <-]. reflexivity.
      * rewrite (onGroundMotionRequest_mismatch (config session) envelope w E).
        simpl snd. now apply IH.
    + rewrite step_switchState. simpl lastRequest. now apply IH.
    + simpl lastRequest. simpl step.
      destruct (atFrequency_keeps clock (config session) w) as (_ & Hr & _).
      unfold after in Hr.
      rewrite (IH _ acc) by (intros m Hm; rewrite Hr; now apply Hacc).
      rewrite Hr. reflexivity.
Qed.

End Runs.

(** X13. No event ends the operation, so runs compose: operating through two
    sequences of events in a row is operating through the first and then,
    from the world it leaves, through the second. *)
Theorem operate_app (clock : nat -> TimeStamp) (session : Session)
    (first second : list Event) (w : World) :
  operate clock session (first ++ second) w
  = operate clock session second (operate clock session first w).
Proof.
  revert w. induction first as [|ev rest IH]; intros w; [reflexivity|].
  rewrite <- app_comm_cons, !operate_cons. apply IH.
Qed.

(** X14. In a session that [main] has set up the stored mode is never written:
    [main] passes the motion handler to [od4.dataTrigger] and not the
    state handler, so whatever envelopes arrive and however often the time
    trigger fires, [state] keeps the value it started with. *)
Theorem main_gate_never_written (stoi : string -> Thrown Z)
    (stof : string -> Thrown float)
    (commandlineArguments : gmap string string) (session : Session)
    (clock : nat -> TimeStamp) (events : list Event) (w : World) :
  setup stoi stof commandlineArguments = Value session ->
  state (operate clock session events w) = state w.
Proof.
  intros Hsetup. apply operate_state.
  exact (setup_dataTriggers stoi stof commandlineArguments session Hsetup).
Qed.

Lemma main_gate_never_written_witness :
  setup Literal.stoi Literal.stof Args.plain = Value Args.plainSession /\
  state (operate Sample.clock Args.plainSession
           [ SwitchStateArrives (Sample.envelope 99 F32.zero F32.zero 1);
             TimeTick ]
           (initialWorld 0)) = 0.
Proof.
  assert (H : setup Literal.stoi Literal.stof Args.plain
              = Value Args.plainSession) by (vm_compute; reflexivity).
  split; [exact H|].
  exact (main_gate_never_written Literal.stoi Literal.stof Args.plain
           Args.plainSession Sample.clock _ (initialWorld 0) H).
Defined.

(** X15. In a session that [main] has set up, started with a stored mode other
    than 1, every time tick sends two messages and reads the clock once,
    and nothing else sends or reads it; started with a stored mode of 1,
    nothing is ever sent. *)
Theorem main_messages_per_tick (stoi : string -> Thrown Z)
    (stof : string -> Thrown float)
    (commandlineArguments : gmap string string) (session : Session)
    (clock : nat -> TimeStamp) (events : list Event) (w : World) :
  setup stoi stof commandlineArguments = Value session ->
  length (sent (operate clock session events w))
  = (length (sent w)
     + if Z.eqb (state w) 1 then 0 else 2 * ticks events)%nat /\
  nowCalls (operate clock session events w)
  = (nowCalls w + if Z.eqb (state w) 1 then 0 else ticks events)%nat.
Proof.
  intros Hsetup. apply operate_sent.
  exact (setup_dataTriggers stoi stof commandlineArguments session Hsetup).
Qed.

Lemma main_messages_per_tick_witness :
  setup Literal.stoi Literal.stof Args.plain = Value Args.plainSession /\
  length (sent (operate Sample.clock Args.plainSession
                  [ TimeTick;
                    MotionArrives (Sample.envelope 0 (F32.of_Z 1) F32.zero 0);
                    TimeTick; TimeTick ]
                  (initialWorld 0))) = 6%nat.
Proof.
  assert (H : setup Literal.stoi Literal.stof Args.plain
              = Value Args.plainSession) by (vm_compute; reflexivity).
  split; [exact H|].
  exact (proj1 (main_messages_per_tick Literal.stoi Literal.stof Args.plain
                  Args.plainSession Sample.clock _ (initialWorld 0) H)).
Defined.

(** X16. In a session that [main] has set up, after any sequence of events the
    command store holds the request of the last motion envelope whose
    sender stamp matched, however many envelopes and ticks came before or
    after it, and its initial content if no envelope matched. *)
Theorem main_last_request_wins (stoi : string -> Thrown Z)
    (stof : string -> Thrown float)
    (commandlineArguments : gmap string string) (session : Session)
    (clock : nat -> TimeStamp) (events : list Event) (w : World) :
  setup stoi stof commandlineArguments = Value session ->
  request (operate clock session events w)
  = match lastRequest (config session) events None with
    | Some m => (vx m, yawRate m)
    | None => request w
    end.
Proof.
  intros Hsetup. apply operate_request.
  - exact (setup_dataTriggers stoi stof commandlineArguments session Hsetup).
  - intros m Hm. discriminate Hm.
Qed.

Lemma main_last_request_wins_witness :
  setup Literal.stoi Literal.stof Args.plain = Value Args.plainSession /\
  request (operate Sample.clock Args.plainSession
             [ MotionArrives (Sample.envelope 0 (F32.of_Z 1) F32.zero 0);
               TimeTick;
               MotionArrives (Sample.envelope 0 (F32.of_Z 2) F32.zero 0);
               MotionArrives (Sample.envelope 7 (F32.of_Z 3) F32.zero 0);
               TimeTick ]
             (initialWorld 0))
  = (F32.of_Z 2, F32.zero).
Proof.
  assert (H : setup Literal.stoi Literal.stof Args.plain
              = Value Args.plainSession) by (vm_compute; reflexivity).
  split; [exact H|].
  exact (main_last_request_wins Literal.stoi Literal.stof Args.plain
           Args.plainSession Sample.clock _ (initialWorld 0) H).
Defined.

(** ** More on startup *)

Section Conversions.

Variable stoi : string -> Thrown Z.
Variable stof : string -> Thrown float.

(** What a successful [setup] went through. *)
Lemma setup_inv (commandlineArguments : gmap string string)
    (session : Session) :
  setup stoi stof commandlineArguments = Value session ->
  exists c f : Z,
    stampArgument stoi commandlineArguments "id-input" 0
    = Value (senderStampInput (config session)) /\
    stampArgument stoi commandlineArguments "id-left" 0
    = Value (senderStampLeft (config session)) /\
    stampArgument stoi commandlineArguments "id-right" 1
    = Value (senderStampRight (config session)) /\
    verbose (config session)
    = negb (count commandlineArguments "verbose" =? 0) /\
    stof (at_key commandlineArguments "track-width")
    = Value (trackWidth (config session)) /\
    stof (at_key commandlineArguments "speed-max")
    = Value (speedMax (config session)) /\
    stoi (at_key commandlineArguments "cid") = Value c /\
    stoi (at_key commandlineArguments "freq") = Value f /\
    cid session = to_uint16 c /\ freq session = f.
Proof.
  unfold setup, tbind.
  repeat match goal with
         | |- context [match ?c with Value _ => _ | Throw _ => _ end] =>
             destruct c; try discriminate
         end.
  intros [= <-]. simpl. eexists; eexists. repeat split; reflexivity.
Qed.

Lemma stampArgument_range (commandlineArguments : gmap string string)
    (key : string) (dflt n : Z) :
  0 <= dflt < 2 ^ 32 ->
  stampArgument stoi commandlineArguments key dflt = Value n ->
  0 <= n < 2 ^ 32.
Proof.
  intros Hd. unfold stampArgument, tbind.
  destruct (negb _).
  - destruct (stoi _); [|discriminate]. intros [= <-].
    unfold to_uint32. apply Z.mod_pos_bound. lia.
  - intros [= <-]. exact Hd.
Qed.

Lemma stampArgument_absent (commandlineArguments : gmap string string)
    (key : string) (dflt : Z) :
  commandlineArguments !! key = None ->
  stampArgument stoi commandlineArguments key dflt = Value dflt.
Proof.
  intros H. unfold stampArgument, count. rewrite H. reflexivity.
Qed.

Lemma present_count (commandlineArguments : gmap string string) :
  ~ missingRequired commandlineArguments ->
  (0 =? count commandlineArguments "cid")
  || (0 =? count commandlineArguments "freq")
  || (0 =? count commandlineArguments "speed-max")
  || (0 =? count commandlineArguments "track-width") = false.
Proof.
  intros H. unfold missingRequired in H.
  rewrite <- !(count_zero) in H.
  destruct (0 =? count commandlineArguments "cid"),
           (0 =? count commandlineArguments "freq"),
           (0 =? count commandlineArguments "speed-max"),
           (0 =? count commandlineArguments "track-width");
    simpl; try reflexivity; exfalso; apply H; tauto.
Qed.

End Conversions.

(** X17. A required value that cannot be converted is not reported as a
    usage error: when the four required arguments are present and
    [std::stof] or [std::stoi] throws on the value of [track-width],
    [speed-max], [cid] or [freq], an exception leaves [main]; it prints no
    usage text and returns no status. *)
Theorem main_unconvertible_value (stoi : string -> Thrown Z)
    (stof : string -> Thrown float)
    (commandlineArguments : gmap string string) (e : Exception) :
  ~ missingRequired commandlineArguments ->
  stof (at_key commandlineArguments "track-width") = Throw e \/
  stof (at_key commandlineArguments "speed-max") = Throw e \/
  stoi (at_key commandlineArguments "cid") = Throw e \/
  stoi (at_key commandlineArguments "freq") = Throw e ->
  exists e' : Exception,
    main stoi stof commandlineArguments = Terminated e'.
Proof.
  intros Hpresent Hthrow. unfold main.
  rewrite (present_count commandlineArguments Hpresent).
  destruct (setup stoi stof commandlineArguments) as [session|e'] eqn:Hs;
    [exfalso | eauto].
  destruct (setup_inv stoi stof _ _ Hs)
    as (c & f & _ & _ & _ & _ & Ht & Hm & Hc & Hf & _).
  destruct Hthrow as [H|[H|[H|H]]]; congruence.
Qed.

Lemma main_unconvertible_value_witness :
  ~ missingRequired Args.unconvertible /\
  Literal.stof (at_key Args.unconvertible "speed-max")
  = Throw invalid_argument /\
  exists e' : Exception,
    main Literal.stoi Literal.stof Args.unconvertible = Terminated e'.
Proof.
  assert (Hpresent : ~ missingRequired Args.unconvertible).
  { intros [H|[H|[H|H]]]; vm_compute in H; discriminate H. }
  assert (Hthrow : Literal.stof (at_key Args.unconvertible "speed-max")
                   = Throw invalid_argument) by (vm_compute; reflexivity).
  split; [exact Hpresent|]. split; [exact Hthrow|].
  apply (main_unconvertible_value Literal.stoi Literal.stof
           Args.unconvertible invalid_argument Hpresent).
  right; left. exact Hthrow.
Defined.

(** X18. The optional arguments and their defaults: in the session [main] sets
    up, an absent [id-input] or [id-left] gives the sender stamp 0, an
    absent [id-right] gives 1, and [verbose] is set exactly when the key
    [verbose] is present, whatever its value. *)
Theorem setup_defaults (stoi : string -> Thrown Z)
    (stof : string -> Thrown float)
    (commandlineArguments : gmap string string) (session : Session) :
  setup stoi stof commandlineArguments = Value session ->
  (commandlineArguments !! "id-input" = None ->
   senderStampInput (config session) = 0) /\
  (commandlineArguments !! "id-left" = None ->
   senderStampLeft (config session) = 0) /\
  (commandlineArguments !! "id-right" = None ->
   senderStampRight (config session) = 1) /\
  (verbose (config session) = true
   <-> commandlineArguments !! "verbose" <> None).
Proof.
  intros Hsetup.
  destruct (setup_inv stoi stof _ _ Hsetup)
    as (c & f & Hi & Hl & Hr & Hv & _).
  repeat split.
  - intros H. rewrite (stampArgument_absent stoi _ _ _ H) in Hi. congruence.
  - intros H. rewrite (stampArgument_absent stoi _ _ _ H) in Hl. congruence.
  - intros H. rewrite (stampArgument_absent stoi _ _ _ H) in Hr. congruence.
  - rewrite Hv. unfold count.
    destruct (commandlineArguments !! "verbose"); simpl; congruence.
  - rewrite Hv. unfold count.
    destruct (commandlineArguments !! "verbose"); simpl; congruence.
Qed.

Lemma setup_defaults_witness :
  setup Literal.stoi Literal.stof Args.plain = Value Args.plainSession /\
  Args.plain !! "id-right" = None /\
  senderStampRight (config Args.plainSession) = 1.
Proof.
  assert (H : setup Literal.stoi Literal.stof Args.plain
              = Value Args.plainSession) by (vm_compute; reflexivity).
  assert (Ha : Args.plain !! "id-right" = None) by (vm_compute; reflexivity).
  split; [exact H|]. split; [exact Ha|].
  exact (proj1 (proj2 (proj2 (setup_defaults Literal.stoi Literal.stof
                                Args.plain Args.plainSession H))) Ha).
Defined.

(** X19. The casts of lines 42-57 wrap: whatever integers [std::stoi] returns,
    the three sender stamps of the session lie in the range of
    [uint32_t] and its connection identifier in the range of [uint16_t];
    a negative or too large argument is taken modulo [2^32] or [2^16]
    and not rejected. *)
Theorem setup_ranges (stoi : string -> Thrown Z)
    (stof : string -> Thrown float)
    (commandlineArguments : gmap string string) (session : Session) :
  setup stoi stof commandlineArguments = Value session ->
  0 <= senderStampInput (config session) < 2 ^ 32 /\
  0 <= senderStampLeft (config session) < 2 ^ 32 /\
  0 <= senderStampRight (config session) < 2 ^ 32 /\
  0 <= cid session < 2 ^ 16 /\
  (forall n : Z,
     commandlineArguments !! "id-input" <> None ->
     stoi (at_key commandlineArguments "id-input") = Value n ->
     senderStampInput (config session) = n mod 2 ^ 32).
Proof.
  intros Hsetup.
  destruct (setup_inv stoi stof _ _ Hsetup)
    as (c & f & Hi & Hl & Hr & _ & _ & _ & _ & _ & Hc & _).
  split; [|split; [|split; [|split]]].
  - apply (stampArgument_range stoi _ _ 0 _ ltac:(lia) Hi).
  - apply (stampArgument_range stoi _ _ 0 _ ltac:(lia) Hl).
  - apply (stampArgument_range stoi _ _ 1 _ ltac:(lia) Hr).
  - rewrite Hc. unfold to_uint16. apply Z.mod_pos_bound. lia.
  - intros n Hpresent Hn. unfold stampArgument, count, tbind in Hi.
    destruct (commandlineArguments !! "id-input"); [|contradiction].
    simpl in Hi. rewrite Hn in Hi. injection Hi as <-. reflexivity.
Qed.

Lemma setup_ranges_witness :
  setup Literal.stoi Literal.stof Args.wrapped
  = Value {| cid := 111; freq := 10;
             config := {| senderStampInput := 4294967295;
                          senderStampLeft := 0; senderStampRight := 1;
                          verbose := true;
                          trackWidth := F32.of_dyadic 1 (-1);
                          speedMax := F32.of_Z 2 |};
             dataTriggers := [OnGroundMotionRequest] |} /\
  0 <= 4294967295 < 2 ^ 32 /\ 0 <= 111 < 2 ^ 16.
Proof.
  assert (H : setup Literal.stoi Literal.stof Args.wrapped
              = Value {| cid := 111; freq := 10;
                         config := {| senderStampInput := 4294967295;
                                      senderStampLeft := 0;
                                      senderStampRight := 1;
                                      verbose := true;
                                      trackWidth := F32.of_dyadic 1 (-1);
                                      speedMax := F32.of_Z 2 |};
                         dataTriggers := [OnGroundMotionRequest] |})
    by (vm_compute; reflexivity).
  split; [exact H|].
  destruct (setup_ranges Literal.stoi Literal.stof Args.wrapped _ H)
    as (Hi & _ & _ & Hc & _).
  split; [exact Hi | exact Hc].
Defined.

(** ** Edge values *)

(** X20. A NaN is not caught: when the stored forward velocity, the stored yaw
    rate, the track-width factor or the maximum speed is a NaN, an active
    tick sends a NaN position to both sides. *)
Theorem atFrequency_nan_propagates (clock : nat -> TimeStamp) (cfg : Config)
    (w : World) :
  state w <> 1 ->
  F32.is_nan (vxRequest w) = true \/ F32.is_nan (yawRateRequest w) = true \/
  F32.is_nan (trackWidth cfg) = true \/ F32.is_nan (speedMax cfg) = true ->
  map position (emittedBy (atFrequency clock cfg) w) = [ F32.nan; F32.nan ].
Proof.
  intros Hs Hnan. unfold emittedBy.
  rewrite (atFrequency_active clock cfg w Hs). simpl.
  rewrite emitted_pair. simpl.
  assert (Hdiv : forall x, F32.div S754_nan x = S754_nan) by reflexivity.
  assert (Hdiv' : forall x, F32.div x S754_nan = S754_nan)
    by (intros [| | |]; reflexivity).
  assert (Hmul : forall x, F32.mul x S754_nan = S754_nan)
    by (intros [| | |]; reflexivity).
  assert (Hsub : forall x, F32.sub x S754_nan = S754_nan)
    by (intros [| | |]; reflexivity).
  assert (Hadd : forall x, F32.add x S754_nan = S754_nan)
    by (intros [| | |]; reflexivity).
  unfold pedalPosition.
  destruct Hnan as [H|[H|[H|H]]].
  - destruct (vxRequest w); try discriminate H. reflexivity.
  - destruct (yawRateRequest w); try discriminate H.
    change (F32.mul S754_nan (trackWidth cfg)) with S754_nan.
    now rewrite Hsub, Hadd.
  - destruct (trackWidth cfg); try discriminate H.
    now rewrite Hmul, Hsub, Hadd.
  - destruct (speedMax cfg); try discriminate H.
    now rewrite !Hdiv'.
Qed.

Lemma atFrequency_nan_propagates_witness :
  state (Sample.world F32.nan (F32.of_Z 1) 0) <> 1 /\
  F32.is_nan (vxRequest (Sample.world F32.nan (F32.of_Z 1) 0)) = true /\
  map position
      (emittedBy (atFrequency Sample.clock (Sample.cfg false))
                 (Sample.world F32.nan (F32.of_Z 1) 0))
  = [ F32.nan; F32.nan ].
Proof.
  assert (Hs : state (Sample.world F32.nan (F32.of_Z 1) 0) <> 1)
    by discriminate.
  split; [exact Hs|]. split; [reflexivity|].
  apply (atFrequency_nan_propagates Sample.clock (Sample.cfg false)
           (Sample.world F32.nan (F32.of_Z 1) 0) Hs).
  left. reflexivity.
Defined.

(** ** A tick at the end of a run *)

(** X21. In a session that [main] has set up and that starts from the initial
    world with a stored mode other than 1, a tick after any sequence of
    events sends the positions of the last motion request accepted so
    far, and those of the zero request if none was accepted. *)
Theorem main_tick_after_run (stoi : string -> Thrown Z)
    (stof : string -> Thrown float)
    (commandlineArguments : gmap string string) (session : Session)
    (clock : nat -> TimeStamp) (events : list Event) (s : Z) :
  setup stoi stof commandlineArguments = Value session ->
  s <> 1 ->
  let last :=
    match lastRequest (config session) events None with
    | Some m => m
    | None => {| vx := F32.zero; yawRate := F32.zero |}
    end in
  let speeds :=
    wheelSpeeds (vx last) (yawRate last) (trackWidth (config session)) in
  map position
      (emittedBy (atFrequency clock (config session))
                 (operate clock session events (initialWorld s)))
  = [ pedalPosition (fst speeds) (speedMax (config session));
      pedalPosition (snd speeds) (speedMax (config session)) ].
Proof.
  intros Hsetup Hs last speeds.
  pose proof (setup_dataTriggers stoi stof _ _ Hsetup) as Hreg.
  pose proof (operate_state clock session Hreg events (initialWorld s)) as Hst.
  pose proof (operate_request clock session Hreg events (initialWorld s) None)
    as Hrq.
  specialize (Hrq ltac:(intros m Hm; discriminate Hm)).
  set (w := operate clock session events (initialWorld s)) in *.
  assert (Hw : state w <> 1) by (rewrite Hst; exact Hs).
  unfold emittedBy.
  rewrite (atFrequency_active clock (config session) w Hw). simpl.
  rewrite emitted_pair. simpl.
  assert (Hv : vxRequest w = vx last /\ yawRateRequest w = yawRate last).
  { unfold request in Hrq. subst last.
    destruct (lastRequest (config session) events None);
      injection Hrq as -> ->; split; reflexivity. }
  destruct Hv as (-> & ->). reflexivity.
Qed.

Lemma main_tick_after_run_witness :
  setup Literal.stoi Literal.stof Args.plain = Value Args.plainSession /\
  0 <> 1 /\
  map position
      (emittedBy (atFrequency Sample.clock (config Args.plainSession))
         (operate Sample.clock Args.plainSession
            [ MotionArrives (Sample.envelope 0 (F32.of_Z 3) F32.zero 0);
              TimeTick;
              MotionArrives (Sample.envelope 0 (F32.of_Z 1) (F32.of_Z 1) 0) ]
            (initialWorld 0)))
  = [ F32.of_dyadic 1 (-2); F32.of_dyadic 3 (-2) ].
Proof.
  assert (H : setup Literal.stoi Literal.stof Args.plain
              = Value Args.plainSession) by (vm_compute; reflexivity).
  assert (Hs : 0 <> 1) by discriminate.
  split; [exact H|]. split; [exact Hs|].
  exact (main_tick_after_run Literal.stoi Literal.stof Args.plain
           Args.plainSession Sample.clock _ 0 H Hs).
Defined.

(** ** The grid *)

Lemma wheelSpeeds_exact_on_grid_witness :
  -16 <= 4 <= 16 /\ -16 <= 4 <= 16 /\ -16 <= 2 <= 16 /\
  wheelSpeeds (F32.of_Z 1) (F32.of_Z 1) (F32.of_dyadic 1 (-1))
  = (F32.of_dyadic 1 (-1), F32.of_dyadic 3 (-1)).
Proof.
  repeat (split; [lia|]).
  exact (wheelSpeeds_exact_on_grid 4 4 2 ltac:(lia) ltac:(lia) ltac:(lia)).
Defined.
